(** * rulesync: the Copilot command adapter ([src/commands/copilot-command.ts])

    A shallow embedding of [CopilotCommand]: its frontmatter schema, its
    constructor, [validate], the two conversions with the canonical
    [RulesyncCommand], [fromFile] and [isTargetedByRulesyncCommand].

    Frontmatter is untyped at run time (the constructor accepts whatever a
    cast or a YAML parser hands it), so it is modelled as a JavaScript value;
    objects are finite maps from keys to values, where a key holding
    [undefined] differs from a missing key. *)

From Stdlib Require Import Floats.PrimFloat.
From stdpp Require Import gmap strings list fin_maps pretty.

Set Warnings "-register-all".

(** ** JavaScript values *)

(** The data a frontmatter block or an object literal of this file can hold.
    Numbers are IEEE 754 doubles, as in JavaScript. *)
Inductive JsValue : Type :=
  | JUndefined
  | JNull
  | JBoolean (b : bool)
  | JNumber (x : float)
  | JString (s : string)
  | JArray (elements : list JsValue)
  | JObject (props : gmap string JsValue).

(** ToBoolean: [undefined], [null], [false], [0], [-0], [NaN] and the empty
    string are falsy; every object and array is truthy. *)
Definition truthy (v : JsValue) : bool :=
  match v with
  | JUndefined | JNull => false
  | JBoolean b => b
  | JNumber x => negb (PrimFloat.is_zero x || PrimFloat.is_nan x)
  | JString s => negb (String.eqb s "")
  | JArray _ | JObject _ => true
  end.

(** [a && b] *)
Definition js_and (a b : JsValue) : JsValue :=
  if truthy a then b else a.

(** What a [throw] carries: [new Error(message)], or the [TypeError] the engine
    raises when a property of [undefined] or [null] is read. *)
Inductive Thrown : Type :=
  | Error (message : string)
  | TypeError.

(** The outcome of running code that may throw. A rejected promise is a
    [Throw] too. *)
Inductive Completion (A : Type) : Type :=
  | Return (a : A)
  | Throw (e : Thrown).
Arguments Return {A} a.
Arguments Throw {A} e.

#[global] Instance Completion_ret : MRet Completion := fun _ a => Return a.
#[global] Instance Completion_bind : MBind Completion := fun _ _ k m =>
  match m with
  | Return a => k a
  | Throw e => Throw e
  end.

(** [v.key]. The keys this file reads ([description], [model], [copilot],
    [targets]) are not properties of the String, Number, Boolean or Array
    prototypes, so on a primitive or an array the read gives [undefined]. *)
Definition get_property (v : JsValue) (key : string) : Completion JsValue :=
  match v with
  | JUndefined | JNull => Throw TypeError
  | JObject props => Return (default JUndefined (props !! key))
  | _ => Return JUndefined
  end.

(** [v?.key] *)
Definition get_property_optional (v : JsValue) (key : string) : Completion JsValue :=
  match v with
  | JUndefined | JNull => Return JUndefined
  | _ => get_property v key
  end.

(** The own enumerable properties an object spread [...v] copies: nothing for
    [undefined], [null], booleans and numbers, the indexed characters of a
    string, the indexed elements of an array, the properties of an object. *)
Definition own_enumerable_properties (v : JsValue) : gmap string JsValue :=
  match v with
  | JObject props => props
  | JArray elements =>
      list_to_map (imap (fun (i : nat) x => (pretty i, x)) elements)
  | JString s =>
      list_to_map
        (imap (fun (i : nat) c => (pretty i, JString (String c "")))
              (String.list_ascii_of_string s))
  | _ => ∅
  end.

(** [{ ...literal, ...(v) }]: the spread comes last, so its keys win. *)
Definition object_spread (literal : gmap string JsValue) (v : JsValue)
  : gmap string JsValue :=
  own_enumerable_properties v ∪ literal.

(** [haystack.includes(needle)] on strings, as a proposition. *)
Definition includes (needle haystack : string) : Prop :=
  ∃ before after, haystack = before +:+ needle +:+ after.

(** ** The part of zod this file uses *)

Module z.

Record ZodIssue : Type := { code : string; path : list string }.

Definition ZodError : Type := list ZodIssue.

Inductive SafeParseResult : Type :=
  | Success (data : JsValue)
  | Failure (error : ZodError).

(** A schema is what [safeParse] does with an input. *)
Record ZodType : Type := { safeParse : JsValue → SafeParseResult }.

Definition success (r : SafeParseResult) : bool :=
  match r with Success _ => true | Failure _ => false end.

Definition literal (value : string) : ZodType :=
  {| safeParse input :=
       match input with
       | JString s =>
           if String.eqb s value then Success input
           else Failure [{| code := "invalid_value"; path := [] |}]
       | _ => Failure [{| code := "invalid_value"; path := [] |}]
       end |}.

Definition string : ZodType :=
  {| safeParse input :=
       match input with
       | JString _ => Success input
       | _ => Failure [{| code := "invalid_type"; path := [] |}]
       end |}.

Definition optional (inner : ZodType) : ZodType :=
  {| safeParse input :=
       match input with
       | JUndefined => Success JUndefined
       | _ => safeParse inner input
       end |}.

Definition array (element : ZodType) : ZodType :=
  {| safeParse input :=
       match input with
       | JArray elements =>
           if forallb (fun x => success (safeParse element x)) elements
           then Success input
           else Failure [{| code := "invalid_type"; path := [] |}]
       | _ => Failure [{| code := "invalid_type"; path := [] |}]
       end |}.

Definition prefix_issue (key : String.string) (i : ZodIssue) : ZodIssue :=
  {| code := code i; path := key :: path i |}.

(** The keys of the shape are read off the input one by one; a missing key
    reads as [undefined]. Keys outside the shape are tolerated and left
    out of the parsed data. *)
Fixpoint parse_shape (shape : list (String.string * ZodType))
    (input : gmap String.string JsValue)
  : gmap String.string JsValue * ZodError :=
  match shape with
  | [] => (∅, [])
  | (key, element) :: rest =>
      let '(data, issues) := parse_shape rest input in
      match safeParse element (default JUndefined (input !! key)) with
      | Failure e => (data, map (prefix_issue key) e ++ issues)
      | Success JUndefined =>
          (match input !! key with
           | Some _ => <[key := JUndefined]> data
           | None => data
           end, issues)
      | Success v => (<[key := v]> data, issues)
      end
  end.

Definition object (shape : list (String.string * ZodType)) : ZodType :=
  {| safeParse input :=
       match input with
       | JObject props =>
           match parse_shape shape props with
           | (data, []) => Success (JObject data)
           | (_, issues) => Failure issues
           end
       | _ => Failure [{| code := "invalid_type"; path := [] |}]
       end |}.

End z.

(** ** The frontmatter schema *)

Definition CopilotCommandFrontmatterSchema : z.ZodType :=
  z.object
    [ ("mode", z.literal "agent");
      ("description", z.string);
      ("model", z.optional z.string) ].

(** The schema in the specification's words: a mapping with the fixed mode
    marker ['agent'], a string description and, optionally, a string model.
    Other keys are tolerated. *)
Definition optional_string (field : option JsValue) : Prop :=
  field = None ∨ field = Some JUndefined ∨ ∃ s, field = Some (JString s).

Definition satisfies_copilot_schema (frontmatter : JsValue) : Prop :=
  ∃ props,
    frontmatter = JObject props
    ∧ props !! "mode" = Some (JString "agent")
    ∧ (∃ d, props !! "description" = Some (JString d))
    ∧ optional_string (props !! "model").

(** ** Collaborators outside this file *)

(** Functions the adapter calls and that live elsewhere: [join] and
    [basename] of [node:path], [formatError], [readFileContent],
    [parseFrontmatter] and [stringifyFrontmatter] of the project's utilities,
    [String.prototype.trim], and the directory that
    [RulesyncCommand.getSettablePaths()] answers. They are parameters of the
    model; reading a file and parsing it may throw. *)
Class Collaborators : Type := {
  join : list string → string;
  basename : string → string;
  formatError : z.ZodError → string;
  stringifyFrontmatter : string → JsValue → string;
  parseFrontmatter : string → Completion (JsValue * string);
  readFileContent : string → Completion string;
  trim : string → string;
  rulesyncCommandsDir : string
}.

(** [filePath.replace(/<suffix>$/, replacement)] for a suffix without regex
    operators: the positions of the input are tried from the left, and the
    pattern matches at a position when what remains of the input is exactly
    the suffix. The first match is replaced; without a match the input comes
    back as it is. *)
Fixpoint replace_at_end (suffix replacement filePath : string) : string :=
  if String.eqb filePath suffix then replacement
  else
    match filePath with
    | EmptyString => EmptyString
    | String c rest => String c (replace_at_end suffix replacement rest)
    end.

(** [`Invalid frontmatter in ${path}: ${formatError(error)}`] *)
Definition invalid_frontmatter_message `{Collaborators}
    (path : string) (error : z.ZodError) : string :=
  "Invalid frontmatter in " +:+ path +:+ ": " +:+ formatError error.

(** [{ success: true, error: null } | { success: false, error: Error }] *)
Record ValidationResult : Type := { success : bool; error : option Thrown }.

(** [ToolCommandSettablePaths] *)
Record ToolCommandSettablePaths : Type := { relativeDirPath : string }.

Module AiFile.

(** Modelled from the spec: the base classes [AiFile] and [ToolCommand]
    ([../types/ai-file.ts], [./tool-command.ts]) are not among the sources.
    The spec's Command Document carries an origin base directory, a
    relative path (directory and filename) and its serialized text; the
    base constructor keeps what it is given. *)
Record t : Type := {
  baseDir : option string;
  relativeDirPath : string;
  relativeFilePath : string;
  fileContent : string
}.

End AiFile.

Module RulesyncCommand.

(** Modelled from the spec: the canonical metadata schema
    [{ targets: array of string | "*", description: string,
       <tool-name>: { <tool-specific optional fields> } }] of
    [./rulesync-command.ts], with the [copilot] block this adapter writes.
    [targets] may be missing: the spec lets [isTargetedBy] meet a document
    without it. *)
Definition RulesyncCommandFrontmatterSchema : z.ZodType :=
  z.object
    [ ("targets", z.optional (z.array z.string));
      ("description", z.string);
      ("copilot", z.optional (z.object [ ("model", z.optional z.string) ])) ].

Record Params : Type := {
  p_baseDir : option string;
  p_frontmatter : JsValue;
  p_body : string;
  p_relativeDirPath : string;
  p_relativeFilePath : string;
  p_fileContent : string;
  p_validate : option bool
}.

Record t : Type := {
  super : AiFile.t;
  frontmatter : JsValue;
  body : string
}.

Section methods.
Context `{Collaborators}.

(** Modelled from the spec: the constructor of [RulesyncCommand] is not
    among the sources. As the spec's Construct does, it checks the
    metadata against the schema when the validate flag is set and fails
    with an error that names the file path. *)
Definition new (params : Params) : Completion t :=
  _ ← (if default false (p_validate params) then
         match z.safeParse RulesyncCommandFrontmatterSchema (p_frontmatter params) with
         | z.Failure error =>
             Throw (Error (invalid_frontmatter_message
                             (join [p_relativeDirPath params; p_relativeFilePath params])
                             error))
         | z.Success _ => Return tt
         end
       else Return tt);
  Return
    {| super :=
         {| AiFile.baseDir := p_baseDir params;
            AiFile.relativeDirPath := p_relativeDirPath params;
            AiFile.relativeFilePath := p_relativeFilePath params;
            AiFile.fileContent := p_fileContent params |};
       frontmatter := p_frontmatter params;
       body := p_body params |}.

Definition getSettablePaths : ToolCommandSettablePaths :=
  {| relativeDirPath := rulesyncCommandsDir |}.

End methods.

Definition getFrontmatter (this : t) : JsValue := frontmatter this.
Definition getBody (this : t) : string := body this.
Definition getRelativeFilePath (this : t) : string :=
  AiFile.relativeFilePath (super this).

End RulesyncCommand.

Module ToolCommand.

(** [targets.includes(x)] *)
Definition array_includes (x : string) (elements : list JsValue) : bool :=
  existsb
    (fun e => match e with JString s => String.eqb s x | _ => false end)
    elements.

(** What reading [frontmatter.targets] gives; [undefined] when the
    document has no such field. *)
Definition targets_of (rulesyncCommand : RulesyncCommand.t) : JsValue :=
  match RulesyncCommand.getFrontmatter rulesyncCommand with
  | JObject props => default JUndefined (props !! "targets")
  | _ => JUndefined
  end.

(** Modelled from the spec: [isTargetedByRulesyncCommandDefault] of
    [./tool-command.ts] is not among the sources. It answers true when the
    canonical document's [targets] field is absent, contains the wildcard
    marker, or lists the tool's identifier, and false otherwise. *)
Definition isTargetedByRulesyncCommandDefault
    (rulesyncCommand : RulesyncCommand.t) (toolTarget : string) : bool :=
  match targets_of rulesyncCommand with
  | JUndefined => true
  | JArray targets =>
      array_includes "*" targets || array_includes toolTarget targets
  | _ => false
  end.

End ToolCommand.

(** ** The adapter *)

Module CopilotCommand.

(** [CopilotCommandParams]: the frontmatter, the body and the base class's
    parameters without [fileContent]. *)
Record Params : Type := {
  p_frontmatter : JsValue;
  p_body : string;
  p_baseDir : option string;
  p_relativeDirPath : string;
  p_relativeFilePath : string;
  p_validate : option bool
}.

Record t : Type := {
  super : AiFile.t;
  frontmatter : JsValue;
  body : string
}.

Definition getBody (this : t) : string := body this.
Definition getFrontmatter (this : t) : JsValue := frontmatter this.
Definition getRelativeDirPath (this : t) : string :=
  AiFile.relativeDirPath (super this).
Definition getRelativeFilePath (this : t) : string :=
  AiFile.relativeFilePath (super this).
Definition getFileContent (this : t) : string :=
  AiFile.fileContent (super this).

Section methods.
Context `{Collaborators}.

(** [constructor({ frontmatter, body, ...rest })]: with [rest.validate]
    truthy the frontmatter is checked first; then the base constructor
    runs on the serialized document and the two fields are stored. *)
Definition new (params : Params) : Completion t :=
  _ ← (if default false (p_validate params) then
         match z.safeParse CopilotCommandFrontmatterSchema (p_frontmatter params) with
         | z.Failure error =>
             Throw (Error (invalid_frontmatter_message
                             (join [p_relativeDirPath params; p_relativeFilePath params])
                             error))
         | z.Success _ => Return tt
         end
       else Return tt);
  Return
    {| super :=
         {| AiFile.baseDir := p_baseDir params;
            AiFile.relativeDirPath := p_relativeDirPath params;
            AiFile.relativeFilePath := p_relativeFilePath params;
            AiFile.fileContent :=
              stringifyFrontmatter (p_body params) (p_frontmatter params) |};
       frontmatter := p_frontmatter params;
       body := p_body params |}.

Definition getSettablePaths : ToolCommandSettablePaths :=
  {| relativeDirPath := join [".github"; "prompts"] |}.

(** The canonical frontmatter [toRulesyncCommand] builds:
    [{ targets: ["*"], description: this.frontmatter.description,
       ...(this.frontmatter.model && { copilot: { model: this.frontmatter.model } }) }] *)
Definition rulesyncFrontmatter_of (this : t) : Completion JsValue :=
  description ← get_property (frontmatter this) "description";
  model ← get_property (frontmatter this) "model";
  Return
    (JObject
       (object_spread
          (<["description" := description]>
             (<["targets" := JArray [JString "*"]]> ∅))
          (js_and model
             (JObject {[ "copilot" := JObject {[ "model" := model ]} ]})))).

Definition toRulesyncCommand (this : t) : Completion RulesyncCommand.t :=
  rulesyncFrontmatter ← rulesyncFrontmatter_of this;
  let originalFilePath := getRelativeFilePath this in
  let relativeFilePath := replace_at_end ".prompt.md" ".md" originalFilePath in
  RulesyncCommand.new
    {| RulesyncCommand.p_baseDir := Some ".";
       RulesyncCommand.p_frontmatter := rulesyncFrontmatter;
       RulesyncCommand.p_body := body this;
       RulesyncCommand.p_relativeDirPath :=
         relativeDirPath RulesyncCommand.getSettablePaths;
       RulesyncCommand.p_relativeFilePath := relativeFilePath;
       RulesyncCommand.p_fileContent := getFileContent this;
       RulesyncCommand.p_validate := Some true |}.

Definition validate (this : t) : ValidationResult :=
  if negb (truthy (frontmatter this)) then
    {| success := true; error := None |}
  else
    match z.safeParse CopilotCommandFrontmatterSchema (frontmatter this) with
    | z.Success _ => {| success := true; error := None |}
    | z.Failure e =>
        {| success := false;
           error :=
             Some (Error (invalid_frontmatter_message
                            (join [getRelativeDirPath this; getRelativeFilePath this])
                            e)) |}
    end.

(** [fromRulesyncCommand({ baseDir = ".", rulesyncCommand, validate = true })] *)
Definition fromRulesyncCommand (baseDir : option string)
    (rulesyncCommand : RulesyncCommand.t) (validate : option bool)
  : Completion t :=
  let baseDir := default "." baseDir in
  let validate := default true validate in
  let paths := getSettablePaths in
  let rulesyncFrontmatter := RulesyncCommand.getFrontmatter rulesyncCommand in
  description ← get_property rulesyncFrontmatter "description";
  copilot ← get_property rulesyncFrontmatter "copilot";
  model ← get_property_optional copilot "model";
  let copilotFrontmatter :=
    JObject
      (<["model" := model]>
         (<["description" := description]>
            (<["mode" := JString "agent"]> ∅))) in
  let body := RulesyncCommand.getBody rulesyncCommand in
  let originalFilePath := RulesyncCommand.getRelativeFilePath rulesyncCommand in
  let relativeFilePath := replace_at_end ".md" ".prompt.md" originalFilePath in
  new
    {| p_baseDir := Some baseDir;
       p_frontmatter := copilotFrontmatter;
       p_body := body;
       p_relativeDirPath := relativeDirPath paths;
       p_relativeFilePath := relativeFilePath;
       p_validate := Some validate |}.

(** [fromFile({ baseDir = ".", relativeFilePath, validate = true })] *)
Definition fromFile (baseDir : option string) (relativeFilePath : string)
    (validate : option bool) : Completion t :=
  let baseDir := default "." baseDir in
  let validate := default true validate in
  let paths := getSettablePaths in
  let filePath :=
    join [baseDir; relativeDirPath paths; relativeFilePath] in
  fileContent ← readFileContent filePath;
  '(frontmatter, content) ← parseFrontmatter fileContent;
  match z.safeParse CopilotCommandFrontmatterSchema frontmatter with
  | z.Failure error =>
      Throw (Error (invalid_frontmatter_message filePath error))
  | z.Success data =>
      new
        {| p_baseDir := Some baseDir;
           p_relativeDirPath := relativeDirPath paths;
           p_relativeFilePath := basename relativeFilePath;
           p_frontmatter := data;
           p_body := trim content;
           p_validate := Some validate |}
  end.

End methods.

Definition isTargetedByRulesyncCommand (rulesyncCommand : RulesyncCommand.t) : bool :=
  ToolCommand.isTargetedByRulesyncCommandDefault rulesyncCommand "copilot".

End CopilotCommand.

(** What the constructor stores when it does not throw. *)
Definition constructed `{Collaborators} (params : CopilotCommand.Params)
  : CopilotCommand.t :=
  {| CopilotCommand.super :=
       {| AiFile.baseDir := CopilotCommand.p_baseDir params;
          AiFile.relativeDirPath := CopilotCommand.p_relativeDirPath params;
          AiFile.relativeFilePath := CopilotCommand.p_relativeFilePath params;
          AiFile.fileContent :=
            stringifyFrontmatter (CopilotCommand.p_body params)
              (CopilotCommand.p_frontmatter params) |};
     CopilotCommand.frontmatter := CopilotCommand.p_frontmatter params;
     CopilotCommand.body := CopilotCommand.p_body params |}.

(** The model that survives [this.frontmatter.model && ...] when the
    frontmatter is valid: a string that is not empty. *)
Definition carried_model (field : option JsValue) : option string :=
  match field with
  | Some (JString s) => if String.eqb s "" then None else Some s
  | _ => None
  end.

(** [{ targets: ["*"], description }], with [copilot: { model }] when a model
    is carried. *)
Definition canonical_frontmatter (description : string) (model : option string)
  : JsValue :=
  let base : gmap string JsValue :=
    <["description" := JString description]>
      (<["targets" := JArray [JString "*"]]> ∅) in
  JObject
    (match model with
     | Some m => <["copilot" := JObject {[ "model" := JString m ]}]> base
     | None => base
     end).

(** [{ mode: "agent", description, model }]: the object literal of
    [fromRulesyncCommand]; its three keys are always there. *)
Definition copilot_frontmatter (description : string) (model : JsValue) : JsValue :=
  JObject
    (<["model" := model]>
       (<["description" := JString description]>
          (<["mode" := JString "agent"]> ∅))).

(** The canonical frontmatter has a [copilot] block with the model [m]. *)
Definition canonical_model_is (rprops : gmap string JsValue) (m : string) : Prop :=
  ∃ block,
    rprops !! "copilot" = Some (JObject block)
    ∧ block !! "model" = Some (JString m).

(** The canonical frontmatter has no [copilot] block, or a block without a
    model. *)
Definition canonical_model_absent (rprops : gmap string JsValue) : Prop :=
  rprops !! "copilot" = None
  ∨ rprops !! "copilot" = Some JUndefined
  ∨ ∃ block,
      rprops !! "copilot" = Some (JObject block)
      ∧ (block !! "model" = None ∨ block !! "model" = Some JUndefined).

(** ** Sample data *)

(** A small environment to run the model on: paths are joined with [/],
    one file exists, and its frontmatter lacks the mode. *)
Definition sample_collaborators : Collaborators :=
  {| join := String.concat "/";
     basename := fun p => p;
     formatError := fun e => String.concat ", " (map z.code e);
     stringifyFrontmatter := fun body _ => body;
     parseFrontmatter := fun content =>
       if String.eqb content "description: Test"
       then Return (JObject {[ "description" := JString "Test" ]}, "Body content")
       else Throw (Error "no frontmatter");
     readFileContent := fun path =>
       if String.eqb path "./.github/prompts/invalid-command.prompt.md"
       then Return "description: Test"
       else Throw (Error "ENOENT");
     trim := fun s => s;
     rulesyncCommandsDir := ".rulesync/commands" |}.

Definition sample_params (frontmatter : JsValue) (validate : option bool)
  : CopilotCommand.Params :=
  {| CopilotCommand.p_frontmatter := frontmatter;
     CopilotCommand.p_body := "Hi";
     CopilotCommand.p_baseDir := Some ".";
     CopilotCommand.p_relativeDirPath := ".github/prompts";
     CopilotCommand.p_relativeFilePath := "foo.prompt.md";
     CopilotCommand.p_validate := validate |}.

(** [{ targets: ["copilot"], description: "Test" }] *)
Definition canonical_without_model : JsValue :=
  JObject
    (<["description" := JString "Test"]>
       (<["targets" := JArray [JString "copilot"]]> ∅)).

(** [{ targets: ["copilot"], description: "Test",
       copilot: { model: "claude-haiku-4.5" } }] *)
Definition canonical_with_model : JsValue :=
  JObject
    (<["copilot" := JObject {[ "model" := JString "claude-haiku-4.5" ]}]>
       (<["description" := JString "Test"]>
          (<["targets" := JArray [JString "copilot"]]> ∅))).

(** A command stored under the given file name. *)
Definition sample_command_named (relativeFilePath : string) : CopilotCommand.t :=
  {| CopilotCommand.super :=
       {| AiFile.baseDir := Some ".";
          AiFile.relativeDirPath := ".github/prompts";
          AiFile.relativeFilePath := relativeFilePath;
          AiFile.fileContent := "Hi" |};
     CopilotCommand.frontmatter :=
       JObject (<["description" := JString "Test"]> (<["mode" := JString "agent"]> ∅));
     CopilotCommand.body := "Hi" |}.

(** A command as the constructor leaves it, for a given frontmatter. *)
Definition sample_command (frontmatter : JsValue) : CopilotCommand.t :=
  {| CopilotCommand.super :=
       {| AiFile.baseDir := Some ".";
          AiFile.relativeDirPath := ".github/prompts";
          AiFile.relativeFilePath := "foo.prompt.md";
          AiFile.fileContent := "Hi" |};
     CopilotCommand.frontmatter := frontmatter;
     CopilotCommand.body := "Hi" |}.

Definition sample_rulesync (frontmatter : JsValue) : RulesyncCommand.t :=
  {| RulesyncCommand.super :=
       {| AiFile.baseDir := Some ".";
          AiFile.relativeDirPath := ".rulesync/commands";
          AiFile.relativeFilePath := "bar.md";
          AiFile.fileContent := "" |};
     RulesyncCommand.frontmatter := frontmatter;
     RulesyncCommand.body := "Body" |}.


(** [{ mode: "agent", description: "Test", model: "claude-haiku-4.5" }] *)
Definition frontmatter_with_model : JsValue :=
  JObject
    (<["model" := JString "claude-haiku-4.5"]>
       (<["description" := JString "Test"]> (<["mode" := JString "agent"]> ∅))).

(** [{ mode: "agent", description: "Test" }] *)
Definition frontmatter_without_model : JsValue :=
  JObject (<["description" := JString "Test"]> (<["mode" := JString "agent"]> ∅)).

(** [{ mode: "agent", description: "Test", model: "" }] *)
Definition frontmatter_with_empty_model : JsValue :=
  JObject
    (<["model" := JString ""]>
       (<["description" := JString "Test"]> (<["mode" := JString "agent"]> ∅))).

(** Closes [satisfies_copilot_schema] on a concrete frontmatter. *)
Ltac concrete_schema :=
  eexists; split; [reflexivity |];
  split; [reflexivity |];
  split; [eexists; reflexivity |];
  first [ by left
        | by (right; left)
        | right; right; eexists; reflexivity ].

(** ** Further notions *)

(** The keys the copilot schema knows. *)
Definition schema_keys : list string := ["mode"; "description"; "model"].

(** [name] ends in [suffix]. *)
Definition ends_with (suffix name : string) : Prop :=
  ∃ stem, name = stem +:+ suffix.

(** What [rulesyncFrontmatter.copilot?.model] reads on an object
    frontmatter: the block's model when [copilot] is an object, [undefined]
    otherwise. *)
Definition canonical_model_read (rprops : gmap string JsValue) : JsValue :=
  match rprops !! "copilot" with
  | Some (JObject block) => default JUndefined (block !! "model")
  | _ => JUndefined
  end.

(** The frontmatter [fromRulesyncCommand] writes for an object frontmatter:
    [{ mode: "agent", description: rulesyncFrontmatter.description,
       model: rulesyncFrontmatter.copilot?.model }] *)
Definition converted_frontmatter (rprops : gmap string JsValue) : JsValue :=
  JObject
    (<["model" := canonical_model_read rprops]>
       (<["description" := default JUndefined (rprops !! "description")]>
          (<["mode" := JString "agent"]> ∅))).

(** [{ targets: ["cursor"], copilot: { model: true } }]: no description, and
    a model that is not a string. *)
Definition canonical_ill_typed : JsValue :=
  JObject
    (<["copilot" := JObject {[ "model" := JBoolean true ]}]>
       (<["targets" := JArray [JString "cursor"]]> ∅)).

(** A command with another frontmatter in place of its own. *)
Definition with_frontmatter (c : CopilotCommand.t) (frontmatter : JsValue)
  : CopilotCommand.t :=
  {| CopilotCommand.super := CopilotCommand.super c;
     CopilotCommand.frontmatter := frontmatter;
     CopilotCommand.body := CopilotCommand.body c |}.

(** A canonical command with another frontmatter in place of its own. *)
Definition with_canonical_frontmatter (r : RulesyncCommand.t) (frontmatter : JsValue)
  : RulesyncCommand.t :=
  {| RulesyncCommand.super := RulesyncCommand.super r;
     RulesyncCommand.frontmatter := frontmatter;
     RulesyncCommand.body := RulesyncCommand.body r |}.

(** An environment with two files under [.github/prompts]: [review.prompt.md]
    in a subdirectory, whose frontmatter is valid and has a key [author] the
    schema does not know, and [plain.prompt.md], which has no frontmatter
    block. *)
Definition sample_files : Collaborators :=
  {| join := String.concat "/";
     basename := fun p =>
       if String.eqb p "team/review.prompt.md" then "review.prompt.md" else p;
     formatError := fun e => String.concat ", " (map z.code e);
     stringifyFrontmatter := fun body _ => body;
     parseFrontmatter := fun content =>
       if String.eqb content "review"
       then Return
              (JObject
                 (<["author" := JString "me"]>
                    (<["description" := JString "Review"]>
                       (<["mode" := JString "agent"]> ∅))),
               "Review the change.")
       else Throw (Error "no frontmatter");
     readFileContent := fun path =>
       if String.eqb path "./.github/prompts/team/review.prompt.md"
       then Return "review"
       else if String.eqb path "./.github/prompts/plain.prompt.md"
       then Return "plain"
       else Throw (Error "ENOENT");
     trim := fun s => s;
     rulesyncCommandsDir := ".rulesync/commands" |}.

(** * Properties *)

(** ** Schema checking *)

Lemma z_literal_success (value : string) (input : JsValue) :
  z.success (z.safeParse (z.literal value) input) = true ↔ input = JString value.
Proof.
  destruct input; simpl; try (split; [discriminate | discriminate]).
  destruct (String.eqb_spec s value) as [-> | Hne]; simpl.
  - split; reflexivity.
  - split; [discriminate | intros [= ->]; contradiction].
Qed.

Lemma z_string_success (input : JsValue) :
  z.success (z.safeParse z.string input) = true ↔ ∃ s, input = JString s.
Proof.
  destruct input; simpl;
    try (split; [discriminate | intros [? [=]]]).
  split; eauto.
Qed.

Lemma z_optional_success (inner : z.ZodType) (input : JsValue) :
  z.success (z.safeParse (z.optional inner) input) = true
  ↔ input = JUndefined ∨ z.success (z.safeParse inner input) = true.
Proof.
  destruct input; simpl; try tauto.
  all: split; [intros ?; by right | intros [[=] | ?]; done].
Qed.

(** A failed parse names at least one issue. *)
Definition reports_issues (schema : z.ZodType) : Prop :=
  ∀ input, z.safeParse schema input ≠ z.Failure [].

Lemma z_literal_reports value : reports_issues (z.literal value).
Proof.
  intros input. destruct input; simpl; try discriminate.
  destruct (String.eqb s value); discriminate.
Qed.

Lemma z_string_reports : reports_issues z.string.
Proof. intros input. destruct input; simpl; discriminate. Qed.

Lemma z_optional_reports inner :
  reports_issues inner → reports_issues (z.optional inner).
Proof.
  intros Hin input. destruct input; simpl; try discriminate; apply Hin.
Qed.

Lemma z_array_reports element : reports_issues (z.array element).
Proof.
  intros input. destruct input; simpl; try discriminate.
  destruct (forallb _ _); discriminate.
Qed.

Lemma z_object_reports shape : reports_issues (z.object shape).
Proof.
  intros input. destruct input; simpl; try discriminate.
  destruct (z.parse_shape shape props) as [data [| i issues]]; discriminate.
Qed.

(** The issues of an object are empty exactly when every key of the shape,
    read off the input, passes its own schema. *)
Lemma z_parse_shape_issues shape (input : gmap string JsValue) :
  Forall (fun entry => reports_issues entry.2) shape →
  (z.parse_shape shape input).2 = []
  ↔ Forall
      (fun entry =>
         z.success (z.safeParse entry.2 (default JUndefined (input !! entry.1))) = true)
      shape.
Proof.
  induction shape as [| [key element] rest IH]; simpl; intros Hrep.
  - split; [constructor | reflexivity].
  - apply Forall_cons in Hrep as [Hel Hrest]. simpl in Hel.
    specialize (IH Hrest).
    destruct (z.parse_shape rest input) as [data issues].
    simpl in IH. rewrite Forall_cons. simpl.
    destruct (z.safeParse element (default JUndefined (input !! key)))
      as [v | e] eqn:Hparse; simpl.
    + assert ((match v with
               | JUndefined =>
                   (match input !! key with
                    | Some _ => <[key:=JUndefined]> data
                    | None => data
                    end, issues)
               | _ => (<[key:=v]> data, issues)
               end).2 = issues) as -> by (by destruct v).
      rewrite IH. tauto.
    + split.
      * intros Happ. apply app_eq_nil in Happ as [He _].
        destruct e; [| discriminate].
        by destruct (Hel (default JUndefined (input !! key))).
      * intros [[=] _].
Qed.

Lemma z_object_success shape (input : JsValue) :
  Forall (fun entry => reports_issues entry.2) shape →
  z.success (z.safeParse (z.object shape) input) = true
  ↔ ∃ props,
      input = JObject props
      ∧ Forall
          (fun entry =>
             z.success (z.safeParse entry.2 (default JUndefined (props !! entry.1))) = true)
          shape.
Proof.
  intros Hrep.
  destruct input; simpl; try (split; [discriminate | intros (? & [=] & _)]).
  pose proof (z_parse_shape_issues shape props Hrep) as Hiss.
  destruct (z.parse_shape shape props) as [data issues]. simpl in Hiss.
  split.
  - intros Hs. exists props. split; [done |]. apply Hiss.
    by destruct issues.
  - intros (props' & [= <-] & Hall). apply Hiss in Hall as ->. done.
Qed.

Lemma lookup_default_string (props : gmap string JsValue) key s :
  default JUndefined (props !! key) = JString s ↔ props !! key = Some (JString s).
Proof.
  destruct (props !! key) as [v |]; simpl.
  - split; [by intros -> | by intros [= ->]].
  - split; discriminate.
Qed.

Lemma lookup_default_optional_string (props : gmap string JsValue) key :
  (default JUndefined (props !! key) = JUndefined
   ∨ ∃ s, default JUndefined (props !! key) = JString s)
  ↔ optional_string (props !! key).
Proof.
  unfold optional_string.
  destruct (props !! key) as [v |]; simpl.
  - split.
    + intros [-> | [s ->]]; eauto.
    + intros [[=] | [[= ->] | [s [= ->]]]]; eauto.
  - split; eauto.
Qed.

Lemma copilot_shape_reports :
  Forall (fun entry : string * z.ZodType => reports_issues entry.2)
    [ ("mode", z.literal "agent");
      ("description", z.string);
      ("model", z.optional z.string) ].
Proof.
  repeat constructor; simpl;
    auto using z_literal_reports, z_string_reports, z_optional_reports.
Qed.

(** [safeParse] against the schema succeeds exactly on the frontmatters the
    specification calls valid. *)
Lemma safeParse_copilot_schema (frontmatter : JsValue) :
  z.success (z.safeParse CopilotCommandFrontmatterSchema frontmatter) = true
  ↔ satisfies_copilot_schema frontmatter.
Proof.
  unfold CopilotCommandFrontmatterSchema, satisfies_copilot_schema.
  rewrite (z_object_success _ _ copilot_shape_reports).
  apply exist_proper; intros props.
  rewrite !Forall_cons, Forall_nil. cbn [fst snd].
  rewrite z_literal_success, z_string_success, z_optional_success, z_string_success.
  rewrite lookup_default_string, lookup_default_optional_string.
  setoid_rewrite lookup_default_string. tauto.
Qed.

Lemma satisfies_copilot_schema_dec (frontmatter : JsValue) :
  satisfies_copilot_schema frontmatter ∨ ¬ satisfies_copilot_schema frontmatter.
Proof.
  rewrite <- safeParse_copilot_schema.
  destruct (z.success _); [by left | by right].
Qed.

(** ** The constructor *)

Lemma includes_invalid_frontmatter_message `{Collaborators} path e :
  includes path (invalid_frontmatter_message path e).
Proof. by exists "Invalid frontmatter in ", (": " +:+ formatError e). Qed.

Lemma safeParse_failure_iff (frontmatter : JsValue) :
  (∃ e, z.safeParse CopilotCommandFrontmatterSchema frontmatter = z.Failure e)
  ↔ ¬ satisfies_copilot_schema frontmatter.
Proof.
  rewrite <- safeParse_copilot_schema.
  destruct (z.safeParse _ _) as [data | e]; simpl.
  - split; [intros [? [=]] | congruence].
  - split; [discriminate | eauto].
Qed.

Lemma safeParse_success_iff (frontmatter : JsValue) :
  (∃ data, z.safeParse CopilotCommandFrontmatterSchema frontmatter = z.Success data)
  ↔ satisfies_copilot_schema frontmatter.
Proof.
  rewrite <- safeParse_copilot_schema.
  destruct (z.safeParse _ _) as [data | e]; simpl.
  - split; eauto.
  - split; [intros [? [=]] | discriminate].
Qed.

Lemma new_without_validation `{Collaborators} params :
  default false (CopilotCommand.p_validate params) = false →
  CopilotCommand.new params = Return (constructed params).
Proof. unfold CopilotCommand.new. by intros ->. Qed.

Lemma new_valid `{Collaborators} params :
  satisfies_copilot_schema (CopilotCommand.p_frontmatter params) →
  CopilotCommand.new params = Return (constructed params).
Proof.
  intros Hok. apply safeParse_success_iff in Hok as [data Hdata].
  unfold CopilotCommand.new. rewrite Hdata.
  by destruct (default false _).
Qed.

Lemma new_invalid `{Collaborators} params e :
  CopilotCommand.p_validate params = Some true →
  z.safeParse CopilotCommandFrontmatterSchema (CopilotCommand.p_frontmatter params)
    = z.Failure e →
  CopilotCommand.new params
  = Throw (Error (invalid_frontmatter_message
                    (join [CopilotCommand.p_relativeDirPath params;
                           CopilotCommand.p_relativeFilePath params]) e)).
Proof. unfold CopilotCommand.new. by intros -> ->. Qed.

Lemma new_returns_constructed `{Collaborators} params c :
  CopilotCommand.new params = Return c → c = constructed params.
Proof.
  unfold CopilotCommand.new.
  destruct (default false (CopilotCommand.p_validate params));
    [destruct (z.safeParse CopilotCommandFrontmatterSchema
                 (CopilotCommand.p_frontmatter params)) |];
    simpl; intros [= <-]; reflexivity.
Qed.

(** C4. For every frontmatter value [F], of any shape, and every body:
    with [validate = true] the constructor throws an error whose message
    includes the file path (the directory joined with the file name) exactly
    when [F] fails the copilot schema, and returns the document holding [F]
    and the body exactly when [F] satisfies it; with [validate = false] it
    never throws, whatever [F] is. *)
Theorem C4_constructor_validation `{Collaborators}
    (F : JsValue) (body : string) (baseDir : option string) (dir file : string) :
  let params validate :=
    {| CopilotCommand.p_frontmatter := F;
       CopilotCommand.p_body := body;
       CopilotCommand.p_baseDir := baseDir;
       CopilotCommand.p_relativeDirPath := dir;
       CopilotCommand.p_relativeFilePath := file;
       CopilotCommand.p_validate := validate |} in
  ((∃ message,
       CopilotCommand.new (params (Some true)) = Throw (Error message)
       ∧ includes (join [dir; file]) message)
   ↔ ¬ satisfies_copilot_schema F)
  ∧ ((∃ c,
         CopilotCommand.new (params (Some true)) = Return c
         ∧ CopilotCommand.getFrontmatter c = F
         ∧ CopilotCommand.getBody c = body)
     ↔ satisfies_copilot_schema F)
  ∧ (∃ c,
        CopilotCommand.new (params (Some false)) = Return c
        ∧ CopilotCommand.getFrontmatter c = F
        ∧ CopilotCommand.getBody c = body).
Proof.
  intros params.
  assert (Hvalid : satisfies_copilot_schema F →
                   CopilotCommand.new (params (Some true))
                   = Return (constructed (params (Some true)))).
  { intros Hok. by apply new_valid. }
  assert (Hinvalid : ¬ satisfies_copilot_schema F →
                     ∃ message,
                       CopilotCommand.new (params (Some true)) = Throw (Error message)
                       ∧ includes (join [dir; file]) message).
  { intros Hbad. apply safeParse_failure_iff in Hbad as [e He].
    eexists. split.
    - by apply new_invalid.
    - apply includes_invalid_frontmatter_message. }
  split; [| split].
  - split; [| done].
    intros (message & Hthrow & _) Hok.
    rewrite (Hvalid Hok) in Hthrow. discriminate.
  - split.
    + intros (c & Hret & _).
      destruct (satisfies_copilot_schema_dec F) as [| Hbad]; [done |].
      destruct (Hinvalid Hbad) as (message & Hthrow & _). congruence.
    + intros Hok. exists (constructed (params (Some true))).
      by rewrite (Hvalid Hok).
  - exists (constructed (params (Some false))). by rewrite new_without_validation.
Qed.

(** ** [validate] *)

Lemma falsy_fails_schema (frontmatter : JsValue) :
  truthy frontmatter = false → ¬ satisfies_copilot_schema frontmatter.
Proof. intros Hfalsy (props & -> & _). discriminate. Qed.

Lemma validate_falsy `{Collaborators} (c : CopilotCommand.t) :
  truthy (CopilotCommand.getFrontmatter c) = false →
  CopilotCommand.validate c = {| success := true; error := None |}.
Proof. unfold CopilotCommand.validate, CopilotCommand.getFrontmatter. by intros ->. Qed.

Lemma validate_valid `{Collaborators} (c : CopilotCommand.t) :
  satisfies_copilot_schema (CopilotCommand.getFrontmatter c) →
  CopilotCommand.validate c = {| success := true; error := None |}.
Proof.
  intros Hok. apply safeParse_success_iff in Hok as [data Hdata].
  unfold CopilotCommand.validate, CopilotCommand.getFrontmatter in *.
  rewrite Hdata. by destruct (negb _).
Qed.

Lemma validate_invalid `{Collaborators} (c : CopilotCommand.t) :
  truthy (CopilotCommand.getFrontmatter c) = true →
  ¬ satisfies_copilot_schema (CopilotCommand.getFrontmatter c) →
  ∃ e,
    CopilotCommand.validate c
    = {| success := false;
         error :=
           Some (Error (invalid_frontmatter_message
                          (join [CopilotCommand.getRelativeDirPath c;
                                 CopilotCommand.getRelativeFilePath c]) e)) |}.
Proof.
  intros Htruthy Hbad. apply safeParse_failure_iff in Hbad as [e He].
  exists e.
  unfold CopilotCommand.validate, CopilotCommand.getFrontmatter in *.
  by rewrite Htruthy, He.
Qed.

(** C7, as the code has it. For every stored frontmatter, [validate]
    returns a result and never throws: the result is
    [{success: true, error: null}] exactly when the frontmatter is falsy or
    satisfies the copilot schema, and [{success: false, error: e}], with [e]
    an [Error] whose message includes the file path, exactly when the
    frontmatter is truthy and fails the schema. *)
Theorem C7_validate_result `{Collaborators} (c : CopilotCommand.t) :
  (CopilotCommand.validate c = {| success := true; error := None |}
   ↔ truthy (CopilotCommand.getFrontmatter c) = false
     ∨ satisfies_copilot_schema (CopilotCommand.getFrontmatter c))
  ∧ ((∃ message,
         CopilotCommand.validate c
         = {| success := false; error := Some (Error message) |}
         ∧ includes
             (join [CopilotCommand.getRelativeDirPath c;
                    CopilotCommand.getRelativeFilePath c])
             message)
     ↔ truthy (CopilotCommand.getFrontmatter c) = true
       ∧ ¬ satisfies_copilot_schema (CopilotCommand.getFrontmatter c)).
Proof.
  destruct (truthy (CopilotCommand.getFrontmatter c)) eqn:Htruthy.
  - destruct (satisfies_copilot_schema_dec (CopilotCommand.getFrontmatter c))
      as [Hok | Hbad].
    + rewrite (validate_valid c Hok). split.
      * split; [by right | done].
      * split; [intros (? & [=] & _) | intros [_ ?]; done].
    + destruct (validate_invalid c Htruthy Hbad) as [e ->]. split.
      * split; [discriminate | intros [[=] | ?]; done].
      * split; [done |]. intros _. eexists. split; [done |].
        apply includes_invalid_frontmatter_message.
  - rewrite (validate_falsy c Htruthy). split.
    + split; [by left | done].
    + split; [intros (? & [=] & _) | intros [[=] _]].
Qed.

(** C7 as stated fails: built with [validate = false] around the empty
    string, a command's frontmatter does not satisfy the schema, and
    [validate] still answers [{success: true, error: null}]. *)
Lemma C7_counterexample :
  ∃ c,
    CopilotCommand.new (H := sample_collaborators)
      (sample_params (JString "") (Some false)) = Return c
    ∧ ¬ satisfies_copilot_schema (CopilotCommand.getFrontmatter c)
    ∧ CopilotCommand.validate (H := sample_collaborators) c
      = {| success := true; error := None |}.
Proof.
  eexists. split; [reflexivity |]. split; [| reflexivity].
  intros (props & [=] & _).
Qed.

(** A falsy frontmatter never gets past a validating constructor. *)
Lemma falsy_frontmatter_without_validation `{Collaborators} params c :
  CopilotCommand.new params = Return c →
  truthy (CopilotCommand.getFrontmatter c) = false →
  default false (CopilotCommand.p_validate params) = false.
Proof.
  intros Hnew Hfalsy.
  destruct (CopilotCommand.p_validate params) as [[|] |] eqn:Hflag; try done.
  pose proof (new_returns_constructed _ _ Hnew) as ->.
  change (truthy (CopilotCommand.p_frontmatter params) = false) in Hfalsy.
  apply falsy_fails_schema in Hfalsy.
  apply safeParse_failure_iff in Hfalsy as [e He].
  rewrite (new_invalid params e Hflag He) in Hnew. discriminate.
Qed.

(** C9. When the stored frontmatter is falsy ([undefined], [null], [false],
    a zero or NaN number, the empty string), [validate] answers
    [{success: true, error: null}], although the schema rejects every such
    value: the schema is not consulted. *)
Theorem C9_validate_falsy_frontmatter `{Collaborators} (c : CopilotCommand.t) :
  truthy (CopilotCommand.getFrontmatter c) = false →
  CopilotCommand.validate c = {| success := true; error := None |}
  ∧ z.success
      (z.safeParse CopilotCommandFrontmatterSchema (CopilotCommand.getFrontmatter c))
    = false.
Proof.
  intros Hfalsy. split; [by apply validate_falsy |].
  apply not_true_is_false. rewrite safeParse_copilot_schema.
  by apply falsy_fails_schema.
Qed.

Lemma C9_witness :
  CopilotCommand.validate (H := sample_collaborators) (sample_command (JBoolean false))
  = {| success := true; error := None |}
  ∧ z.success (z.safeParse CopilotCommandFrontmatterSchema (JBoolean false)) = false.
Proof.
  apply (C9_validate_falsy_frontmatter (H := sample_collaborators)
           (sample_command (JBoolean false))).
  reflexivity.
Defined.

(** ** [toRulesyncCommand] *)

Lemma carried_model_Some field m :
  carried_model field = Some m ↔ field = Some (JString m) ∧ m ≠ "".
Proof.
  unfold carried_model. destruct field as [[] |]; try (split; [discriminate | intros [[=] _]]).
  - destruct (String.eqb_spec s "") as [-> | Hne].
    + split; [discriminate | intros [[= <-] ?]; done].
    + split; [intros [= ->]; done | intros [[= ->] _]; done].
Qed.

Lemma rulesyncFrontmatter_of_valid `{Collaborators} (c : CopilotCommand.t) cprops d :
  CopilotCommand.getFrontmatter c = JObject cprops →
  cprops !! "description" = Some (JString d) →
  optional_string (cprops !! "model") →
  CopilotCommand.rulesyncFrontmatter_of c
  = Return (canonical_frontmatter d (carried_model (cprops !! "model"))).
Proof.
  unfold CopilotCommand.getFrontmatter, CopilotCommand.rulesyncFrontmatter_of.
  intros -> Hd Hm. simpl. rewrite Hd. simpl.
  unfold js_and, object_spread, canonical_frontmatter.
  destruct Hm as [-> | [-> | [[| a s] ->]]]; simpl.
  - by rewrite (left_id_L ∅ (∪)).
  - by rewrite (left_id_L ∅ (∪)).
  - by rewrite (left_id_L ∅ (∪)).
  - by rewrite <- insert_union_singleton_l.
Qed.

Lemma RulesyncCommand_new_canonical `{Collaborators} d m baseDir body dir file content :
  RulesyncCommand.new
    {| RulesyncCommand.p_baseDir := baseDir;
       RulesyncCommand.p_frontmatter := canonical_frontmatter d m;
       RulesyncCommand.p_body := body;
       RulesyncCommand.p_relativeDirPath := dir;
       RulesyncCommand.p_relativeFilePath := file;
       RulesyncCommand.p_fileContent := content;
       RulesyncCommand.p_validate := Some true |}
  = Return
      {| RulesyncCommand.super :=
           {| AiFile.baseDir := baseDir;
              AiFile.relativeDirPath := dir;
              AiFile.relativeFilePath := file;
              AiFile.fileContent := content |};
         RulesyncCommand.frontmatter := canonical_frontmatter d m;
         RulesyncCommand.body := body |}.
Proof.
  unfold RulesyncCommand.new. cbn [RulesyncCommand.p_validate default].
  cbn [RulesyncCommand.p_frontmatter].
  assert (z.success
            (z.safeParse RulesyncCommand.RulesyncCommandFrontmatterSchema
               (canonical_frontmatter d m)) = true) as Hok.
  { destruct m; vm_compute; reflexivity. }
  destruct (z.safeParse _ _); [reflexivity | discriminate].
Qed.

(** The canonical document a valid command converts to. *)
Lemma toRulesyncCommand_valid `{Collaborators} (c : CopilotCommand.t) cprops d :
  CopilotCommand.getFrontmatter c = JObject cprops →
  cprops !! "description" = Some (JString d) →
  optional_string (cprops !! "model") →
  CopilotCommand.toRulesyncCommand c
  = Return
      {| RulesyncCommand.super :=
           {| AiFile.baseDir := Some ".";
              AiFile.relativeDirPath := rulesyncCommandsDir;
              AiFile.relativeFilePath :=
                replace_at_end ".prompt.md" ".md" (CopilotCommand.getRelativeFilePath c);
              AiFile.fileContent := CopilotCommand.getFileContent c |};
         RulesyncCommand.frontmatter :=
           canonical_frontmatter d (carried_model (cprops !! "model"));
         RulesyncCommand.body := CopilotCommand.getBody c |}.
Proof.
  intros Hc Hd Hm. unfold CopilotCommand.toRulesyncCommand.
  rewrite (rulesyncFrontmatter_of_valid c cprops d Hc Hd Hm).
  apply RulesyncCommand_new_canonical.
Qed.

(** C2. For every command whose frontmatter satisfies the copilot schema,
    [toRulesyncCommand] returns a canonical document with the same body and
    a frontmatter made of [targets = ["*"]], the description copied as it
    is, and nothing else but, possibly, a [copilot] block. The block is
    there only when the model field is present, and then holds that model;
    a non-empty model always gets its block; with the model absent the
    frontmatter has no [copilot] key at all. *)
Theorem C2_toRulesyncCommand_frontmatter `{Collaborators}
    (c : CopilotCommand.t) (cprops : gmap string JsValue) :
  CopilotCommand.getFrontmatter c = JObject cprops →
  satisfies_copilot_schema (JObject cprops) →
  ∃ r props,
    CopilotCommand.toRulesyncCommand c = Return r
    ∧ RulesyncCommand.getBody r = CopilotCommand.getBody c
    ∧ RulesyncCommand.getFrontmatter r = JObject props
    ∧ props !! "targets" = Some (JArray [JString "*"])
    ∧ props !! "description" = cprops !! "description"
    ∧ (∀ key, is_Some (props !! key) →
              key = "targets" ∨ key = "description" ∨ key = "copilot")
    ∧ (∀ block, props !! "copilot" = Some block →
                ∃ m, cprops !! "model" = Some (JString m)
                     ∧ block = JObject {[ "model" := JString m ]})
    ∧ (∀ m, cprops !! "model" = Some (JString m) → m ≠ "" →
            props !! "copilot" = Some (JObject {[ "model" := JString m ]}))
    ∧ (cprops !! "model" = None → props !! "copilot" = None).
Proof.
  intros Hc (cprops' & [= <-] & _ & [d Hd] & Hm).
  rewrite (toRulesyncCommand_valid c cprops d Hc Hd Hm).
  unfold RulesyncCommand.getFrontmatter, RulesyncCommand.getBody.
  destruct (carried_model (cprops !! "model")) as [m |] eqn:Hcarried;
    eexists; eexists; simpl;
    (split; [reflexivity |]); (split; [reflexivity |]);
    (split; [reflexivity |]); (split; [reflexivity |]);
    (split; [by rewrite Hd |]).
  - apply carried_model_Some in Hcarried as [Hmodel Hne].
    split; [| split; [| split]].
    + intros key [v Hv]. rewrite !lookup_insert in Hv.
      repeat case_decide; simplify_eq; auto.
    + intros block [= <-]. eauto.
    + intros m' Hm' _. rewrite Hmodel in Hm'. by simplify_eq.
    + intros Hnone. congruence.
  - split; [| split; [| split]].
    + intros key [v Hv]. rewrite !lookup_insert in Hv.
      repeat case_decide; simplify_eq; auto.
    + intros block [=].
    + intros m Hmodel Hne. exfalso.
      assert (carried_model (cprops !! "model") = Some m) as Hsome
        by (by apply carried_model_Some).
      congruence.
    + done.
Qed.

(** The specification's example: [{mode: "agent", description: "Test",
    model: "claude-haiku-4.5"}] with body ["Hi"]. *)
Lemma C2_witness :
  ∃ r props,
    CopilotCommand.toRulesyncCommand (H := sample_collaborators)
      (sample_command frontmatter_with_model) = Return r
    ∧ RulesyncCommand.getBody r = "Hi"
    ∧ RulesyncCommand.getFrontmatter r = JObject props
    ∧ props !! "targets" = Some (JArray [JString "*"])
    ∧ props !! "description" = Some (JString "Test")
    ∧ props !! "copilot"
      = Some (JObject {[ "model" := JString "claude-haiku-4.5" ]}).
Proof.
  destruct (C2_toRulesyncCommand_frontmatter (H := sample_collaborators)
              (sample_command frontmatter_with_model)
              (<["model" := JString "claude-haiku-4.5"]>
                 (<["description" := JString "Test"]>
                    (<["mode" := JString "agent"]> ∅))))
    as (r & props & Hr & Hbody & Hfm & Htargets & Hdescription & _ & _ & Hmodel & _).
  - reflexivity.
  - concrete_schema.
  - exists r, props. repeat split; try assumption.
    apply Hmodel; [reflexivity | discriminate].
Defined.

Example toRulesyncCommand_example :
  CopilotCommand.toRulesyncCommand (H := sample_collaborators)
    (sample_command frontmatter_with_model)
  = Return
      {| RulesyncCommand.super :=
           {| AiFile.baseDir := Some ".";
              AiFile.relativeDirPath := ".rulesync/commands";
              AiFile.relativeFilePath := "foo.md";
              AiFile.fileContent := "Hi" |};
         RulesyncCommand.frontmatter :=
           JObject
             (<["copilot" := JObject {[ "model" := JString "claude-haiku-4.5" ]}]>
                (<["description" := JString "Test"]>
                   (<["targets" := JArray [JString "*"]]> ∅)));
         RulesyncCommand.body := "Hi" |}.
Proof. vm_compute. reflexivity. Qed.

(** C8. The test on the model is one of truthiness: a frontmatter whose
    model is the empty string converts exactly as the same frontmatter
    without the model key does, and, when it is valid, the canonical
    frontmatter it converts to has no [copilot] key. *)
Theorem C8_empty_model_is_dropped `{Collaborators}
    (c : CopilotCommand.t) (cprops : gmap string JsValue) :
  CopilotCommand.getFrontmatter c = JObject cprops →
  cprops !! "model" = Some (JString "") →
  CopilotCommand.toRulesyncCommand c
  = CopilotCommand.toRulesyncCommand
      {| CopilotCommand.super := CopilotCommand.super c;
         CopilotCommand.frontmatter := JObject (delete "model" cprops);
         CopilotCommand.body := CopilotCommand.body c |}
  ∧ (satisfies_copilot_schema (JObject cprops) →
     ∃ r props,
       CopilotCommand.toRulesyncCommand c = Return r
       ∧ RulesyncCommand.getFrontmatter r = JObject props
       ∧ props !! "copilot" = None).
Proof.
  intros Hc Hmodel. split.
  - unfold CopilotCommand.toRulesyncCommand, CopilotCommand.rulesyncFrontmatter_of.
    unfold CopilotCommand.getFrontmatter in Hc. rewrite Hc. simpl.
    rewrite Hmodel, lookup_delete_eq, lookup_delete_ne by done.
    reflexivity.
  - intros (cprops' & [= <-] & _ & [d Hd] & Hm).
    rewrite (toRulesyncCommand_valid c cprops d Hc Hd Hm).
    rewrite Hmodel. simpl. eexists. eexists.
    split; [reflexivity |]. split; reflexivity.
Qed.

Lemma C8_witness :
  CopilotCommand.toRulesyncCommand (H := sample_collaborators)
    (sample_command frontmatter_with_empty_model)
  = CopilotCommand.toRulesyncCommand (H := sample_collaborators)
      (sample_command frontmatter_without_model)
  ∧ ∃ r props,
      CopilotCommand.toRulesyncCommand (H := sample_collaborators)
        (sample_command frontmatter_with_empty_model) = Return r
      ∧ RulesyncCommand.getFrontmatter r = JObject props
      ∧ props !! "copilot" = None.
Proof.
  destruct (C8_empty_model_is_dropped (H := sample_collaborators)
              (sample_command frontmatter_with_empty_model)
              (<["model" := JString ""]>
                 (<["description" := JString "Test"]>
                    (<["mode" := JString "agent"]> ∅))))
    as [Hsame Hnone].
  - reflexivity.
  - reflexivity.
  - split.
    + rewrite Hsame. reflexivity.
    + apply Hnone. concrete_schema.
Defined.

(** ** [fromRulesyncCommand] *)

Lemma copilot_frontmatter_valid d model :
  model = JUndefined ∨ (∃ m, model = JString m) →
  satisfies_copilot_schema (copilot_frontmatter d model).
Proof.
  intros Hmodel. eexists. split; [reflexivity |].
  split; [reflexivity |]. split; [by eexists |].
  destruct Hmodel as [-> | [m ->]].
  - right; left. reflexivity.
  - right; right. by eexists.
Qed.

(** The document [fromRulesyncCommand] returns, given what
    [rulesyncFrontmatter.copilot?.model] reads. *)
Lemma fromRulesyncCommand_returns `{Collaborators} baseDir validate
    (r : RulesyncCommand.t) rprops d model :
  RulesyncCommand.getFrontmatter r = JObject rprops →
  rprops !! "description" = Some (JString d) →
  get_property_optional (default JUndefined (rprops !! "copilot")) "model"
  = Return model →
  model = JUndefined ∨ (∃ m, model = JString m) →
  CopilotCommand.fromRulesyncCommand baseDir r validate
  = Return
      (constructed
         {| CopilotCommand.p_frontmatter := copilot_frontmatter d model;
            CopilotCommand.p_body := RulesyncCommand.getBody r;
            CopilotCommand.p_baseDir := Some (default "." baseDir);
            CopilotCommand.p_relativeDirPath :=
              relativeDirPath CopilotCommand.getSettablePaths;
            CopilotCommand.p_relativeFilePath :=
              replace_at_end ".md" ".prompt.md" (RulesyncCommand.getRelativeFilePath r);
            CopilotCommand.p_validate := Some (default true validate) |}).
Proof.
  intros Hr Hd Hread Hmodel.
  unfold CopilotCommand.fromRulesyncCommand. rewrite Hr. simpl.
  rewrite Hd. simpl. rewrite Hread. simpl.
  apply new_valid. simpl. by apply copilot_frontmatter_valid.
Qed.

Lemma read_canonical_model rprops m :
  canonical_model_is rprops m →
  get_property_optional (default JUndefined (rprops !! "copilot")) "model"
  = Return (JString m).
Proof. intros (block & -> & Hm). simpl. by rewrite Hm. Qed.

Lemma read_canonical_model_absent rprops :
  canonical_model_absent rprops →
  get_property_optional (default JUndefined (rprops !! "copilot")) "model"
  = Return JUndefined.
Proof.
  intros [-> | [-> | (block & -> & [Hm | Hm])]]; simpl; try done;
    by rewrite Hm.
Qed.

(** C3, as the code has it. For every canonical command whose frontmatter
    is an object with a string description, and for every base directory and
    validate flag, [fromRulesyncCommand] returns a document with the
    canonical body and the frontmatter [{mode, description, model}]: the
    mode is the literal ['agent'], the description is the canonical one, and
    the model is the one of the canonical [copilot] block when that block
    has a model. Otherwise the model key is still there and holds
    [undefined]. *)
Theorem C3_fromRulesyncCommand_frontmatter `{Collaborators}
    (baseDir : option string) (validate : option bool)
    (r : RulesyncCommand.t) (rprops : gmap string JsValue) (d : string) :
  RulesyncCommand.getFrontmatter r = JObject rprops →
  rprops !! "description" = Some (JString d) →
  (∀ m, canonical_model_is rprops m →
        ∃ c, CopilotCommand.fromRulesyncCommand baseDir r validate = Return c
             ∧ CopilotCommand.getBody c = RulesyncCommand.getBody r
             ∧ CopilotCommand.getFrontmatter c = copilot_frontmatter d (JString m))
  ∧ (canonical_model_absent rprops →
     ∃ c, CopilotCommand.fromRulesyncCommand baseDir r validate = Return c
          ∧ CopilotCommand.getBody c = RulesyncCommand.getBody r
          ∧ CopilotCommand.getFrontmatter c = copilot_frontmatter d JUndefined).
Proof.
  intros Hr Hd. split.
  - intros m Hm.
    rewrite (fromRulesyncCommand_returns _ _ _ rprops d (JString m));
      eauto using read_canonical_model.
  - intros Habsent.
    rewrite (fromRulesyncCommand_returns _ _ _ rprops d JUndefined);
      eauto using read_canonical_model_absent.
Qed.

Lemma C3_witness :
  (∃ c,
      CopilotCommand.fromRulesyncCommand (H := sample_collaborators)
        None (sample_rulesync canonical_with_model) None = Return c
      ∧ CopilotCommand.getBody c = "Body"
      ∧ CopilotCommand.getFrontmatter c
        = copilot_frontmatter "Test" (JString "claude-haiku-4.5"))
  ∧ (∃ c,
        CopilotCommand.fromRulesyncCommand (H := sample_collaborators)
          None (sample_rulesync canonical_without_model) None = Return c
        ∧ CopilotCommand.getBody c = "Body"
        ∧ CopilotCommand.getFrontmatter c = copilot_frontmatter "Test" JUndefined).
Proof.
  split.
  - refine (proj1 (C3_fromRulesyncCommand_frontmatter (H := sample_collaborators)
                     None None (sample_rulesync canonical_with_model) _ "Test"
                     eq_refl eq_refl) "claude-haiku-4.5" _).
    eexists. split; reflexivity.
  - refine (proj2 (C3_fromRulesyncCommand_frontmatter (H := sample_collaborators)
                     None None (sample_rulesync canonical_without_model) _ "Test"
                     eq_refl eq_refl) _).
    left. reflexivity.
Defined.

(** C3 as stated fails: converted from [{targets: ["copilot"], description:
    "Test"}], the frontmatter has the key [model], holding [undefined]. *)
Lemma C3_counterexample :
  ∃ c props,
    CopilotCommand.fromRulesyncCommand (H := sample_collaborators)
      None (sample_rulesync canonical_without_model) None = Return c
    ∧ CopilotCommand.getFrontmatter c = JObject props
    ∧ props !! "model" = Some JUndefined
    ∧ props !! "model" ≠ None.
Proof.
  eexists. eexists. split; [reflexivity |]. split; [reflexivity |].
  split; [reflexivity | discriminate].
Qed.

(** ** The round trip *)

Lemma fromRulesyncCommand_canonical `{Collaborators} baseDir validate
    (r : RulesyncCommand.t) d carried :
  RulesyncCommand.getFrontmatter r = canonical_frontmatter d carried →
  CopilotCommand.fromRulesyncCommand baseDir r validate
  = Return
      (constructed
         {| CopilotCommand.p_frontmatter :=
              copilot_frontmatter d
                (match carried with Some m => JString m | None => JUndefined end);
            CopilotCommand.p_body := RulesyncCommand.getBody r;
            CopilotCommand.p_baseDir := Some (default "." baseDir);
            CopilotCommand.p_relativeDirPath :=
              relativeDirPath CopilotCommand.getSettablePaths;
            CopilotCommand.p_relativeFilePath :=
              replace_at_end ".md" ".prompt.md" (RulesyncCommand.getRelativeFilePath r);
            CopilotCommand.p_validate := Some (default true validate) |}).
Proof.
  intros Hr. destruct carried as [m |].
  - eapply fromRulesyncCommand_returns; [exact Hr | reflexivity | reflexivity | eauto].
  - eapply fromRulesyncCommand_returns; [exact Hr | reflexivity | reflexivity | eauto].
Qed.

(** C1, as the code has it. For every frontmatter [M] that satisfies the
    copilot schema and every body [B]: constructing the command (with any
    validate flag), converting it with [toRulesyncCommand] and back with
    [fromRulesyncCommand] (with any base directory and validate flag)
    succeeds at each step, and gives a document whose body is [B] and whose
    frontmatter is [{mode: "agent", description, model}] with [M]'s
    description; the model is [M]'s when that is a non-empty string, and
    [undefined] otherwise. So the frontmatter comes back equal to [M] when
    [M] has exactly these three keys and a non-empty model. *)
Theorem C1_round_trip `{Collaborators}
    (mprops : gmap string JsValue) (B : string)
    (baseDir : option string) (dir file : string) (validate : option bool)
    (baseDir' : option string) (validate' : option bool) :
  satisfies_copilot_schema (JObject mprops) →
  ∃ c r c' d,
    CopilotCommand.new
      {| CopilotCommand.p_frontmatter := JObject mprops;
         CopilotCommand.p_body := B;
         CopilotCommand.p_baseDir := baseDir;
         CopilotCommand.p_relativeDirPath := dir;
         CopilotCommand.p_relativeFilePath := file;
         CopilotCommand.p_validate := validate |} = Return c
    ∧ CopilotCommand.toRulesyncCommand c = Return r
    ∧ CopilotCommand.fromRulesyncCommand baseDir' r validate' = Return c'
    ∧ CopilotCommand.getBody c' = B
    ∧ mprops !! "description" = Some (JString d)
    ∧ CopilotCommand.getFrontmatter c'
      = copilot_frontmatter d
          (match carried_model (mprops !! "model") with
           | Some m => JString m
           | None => JUndefined
           end)
    ∧ (∀ m, JObject mprops = copilot_frontmatter d (JString m) → m ≠ "" →
            CopilotCommand.getFrontmatter c' = JObject mprops).
Proof.
  intros Hvalid.
  pose proof Hvalid as (mprops' & [= <-] & _ & [d Hd] & Hm).
  match goal with
  | |- context [CopilotCommand.new ?p] =>
      pose proof (new_valid p Hvalid) as Hc; set (c := constructed p) in *
  end.
  pose proof (toRulesyncCommand_valid c mprops d eq_refl Hd Hm) as Hr.
  match type of Hr with _ = Return ?x => set (r := x) in * end.
  pose proof (fromRulesyncCommand_canonical baseDir' validate' r d _ eq_refl) as Hc'.
  match type of Hc' with _ = Return ?x => set (c' := x) in * end.
  exists c, r, c', d.
  split; [exact Hc |]. split; [exact Hr |]. split; [exact Hc' |].
  split; [reflexivity |]. split; [exact Hd |]. split; [reflexivity |].
  intros m [= ->] Hne. unfold CopilotCommand.getFrontmatter. simpl.
  rewrite lookup_insert_eq. simpl.
  destruct (String.eqb_spec m "") as [| _]; [contradiction | reflexivity].
Qed.

Lemma C1_witness :
  ∃ c r c',
    CopilotCommand.new (H := sample_collaborators)
      (sample_params frontmatter_with_model (Some true)) = Return c
    ∧ CopilotCommand.toRulesyncCommand (H := sample_collaborators) c = Return r
    ∧ CopilotCommand.fromRulesyncCommand (H := sample_collaborators)
        None r None = Return c'
    ∧ CopilotCommand.getBody c' = "Hi"
    ∧ CopilotCommand.getFrontmatter c' = frontmatter_with_model.
Proof.
  destruct (C1_round_trip (H := sample_collaborators)
              (<["model" := JString "claude-haiku-4.5"]>
                 (<["description" := JString "Test"]>
                    (<["mode" := JString "agent"]> ∅)))
              "Hi" (Some ".") ".github/prompts" "foo.prompt.md" (Some true)
              None None)
    as (c & r & c' & d & Hc & Hr & Hc' & Hbody & Hd & _ & Hsame).
  - concrete_schema.
  - exists c, r, c'. repeat split; try assumption.
    assert (d = "Test") as -> by (vm_compute in Hd; congruence).
    exact (Hsame "claude-haiku-4.5" eq_refl ltac:(done)).
Defined.

(** C1 as stated fails, in two ways. A model that is the empty string is
    lost on the way: the frontmatter comes back with [model: undefined]. And
    a frontmatter without the model key comes back with the key, holding
    [undefined]. *)
Lemma C1_counterexample :
  (∃ c r c',
      CopilotCommand.new (H := sample_collaborators)
        (sample_params frontmatter_with_empty_model (Some true)) = Return c
      ∧ CopilotCommand.toRulesyncCommand (H := sample_collaborators) c = Return r
      ∧ CopilotCommand.fromRulesyncCommand (H := sample_collaborators)
          None r None = Return c'
      ∧ CopilotCommand.getFrontmatter c' = copilot_frontmatter "Test" JUndefined
      ∧ CopilotCommand.getFrontmatter c' ≠ frontmatter_with_empty_model)
  ∧ (∃ c r c' props,
        CopilotCommand.new (H := sample_collaborators)
          (sample_params frontmatter_without_model (Some true)) = Return c
        ∧ CopilotCommand.toRulesyncCommand (H := sample_collaborators) c = Return r
        ∧ CopilotCommand.fromRulesyncCommand (H := sample_collaborators)
            None r None = Return c'
        ∧ CopilotCommand.getFrontmatter c' = JObject props
        ∧ props !! "model" = Some JUndefined
        ∧ CopilotCommand.getFrontmatter c' ≠ frontmatter_without_model).
Proof.
  split.
  - do 3 eexists. split; [reflexivity |]. split; [reflexivity |].
    split; [reflexivity |]. split; [reflexivity |].
    intros Heq.
    apply (f_equal (fun v => match v with
                             | JObject props => props !! "model"
                             | _ => None
                             end)) in Heq.
    discriminate.
  - do 4 eexists. split; [reflexivity |]. split; [reflexivity |].
    split; [reflexivity |]. split; [reflexivity |]. split; [reflexivity |].
    intros Heq.
    apply (f_equal (fun v => match v with
                             | JObject props => props !! "model"
                             | _ => None
                             end)) in Heq.
    discriminate.
Qed.

(** ** File names *)

Lemma string_length_app (s1 s2 : string) :
  String.length (s1 +:+ s2) = String.length s1 + String.length s2.
Proof. induction s1 as [| c s1 IH]; simpl; [done | by rewrite IH]. Qed.

Lemma replace_at_end_unfold (suffix replacement filePath : string) :
  replace_at_end suffix replacement filePath
  = if String.eqb filePath suffix then replacement
    else
      match filePath with
      | EmptyString => EmptyString
      | String c rest => String c (replace_at_end suffix replacement rest)
      end.
Proof. by destruct filePath. Qed.

(** A name that ends in the suffix loses it for the replacement, and the
    part in front of it stays as it is. *)
Lemma replace_at_end_suffix (suffix replacement stem : string) :
  replace_at_end suffix replacement (stem +:+ suffix) = stem +:+ replacement.
Proof.
  induction stem as [| c stem IH]; rewrite replace_at_end_unfold.
  - simpl. by rewrite String.eqb_refl.
  - destruct (String.eqb_spec (String c stem +:+ suffix) suffix) as [Heq | _].
    + apply (f_equal String.length) in Heq.
      rewrite string_length_app in Heq. simpl in Heq. lia.
    + simpl. by rewrite IH.
Qed.

(** A name that does not end in the suffix comes back unchanged. *)
Lemma replace_at_end_other (suffix replacement name : string) :
  (∀ stem, name ≠ stem +:+ suffix) →
  replace_at_end suffix replacement name = name.
Proof.
  induction name as [| c name IH]; intros Hno; rewrite replace_at_end_unfold.
  - destruct (String.eqb_spec "" suffix) as [<- | _]; [| done].
    by destruct (Hno "").
  - destruct (String.eqb_spec (String c name) suffix) as [<- | _].
    + by destruct (Hno "").
    + rewrite IH; [done |]. intros stem ->. by destruct (Hno (String c stem)).
Qed.

Lemma RulesyncCommand_new_relativeFilePath `{Collaborators} params r :
  RulesyncCommand.new params = Return r →
  RulesyncCommand.getRelativeFilePath r = RulesyncCommand.p_relativeFilePath params.
Proof.
  unfold RulesyncCommand.new.
  destruct (default false (RulesyncCommand.p_validate params));
    [destruct (z.safeParse RulesyncCommand.RulesyncCommandFrontmatterSchema
                 (RulesyncCommand.p_frontmatter params)) |];
    simpl; intros [= <-]; reflexivity.
Qed.

Lemma toRulesyncCommand_relativeFilePath `{Collaborators} (c : CopilotCommand.t) r :
  CopilotCommand.toRulesyncCommand c = Return r →
  RulesyncCommand.getRelativeFilePath r
  = replace_at_end ".prompt.md" ".md" (CopilotCommand.getRelativeFilePath c).
Proof.
  unfold CopilotCommand.toRulesyncCommand.
  destruct (CopilotCommand.rulesyncFrontmatter_of c) as [fm | e]; [| done].
  intros Hnew. by apply RulesyncCommand_new_relativeFilePath in Hnew.
Qed.

Lemma fromRulesyncCommand_relativeFilePath `{Collaborators} baseDir validate
    (r : RulesyncCommand.t) c :
  CopilotCommand.fromRulesyncCommand baseDir r validate = Return c →
  CopilotCommand.getRelativeFilePath c
  = replace_at_end ".md" ".prompt.md" (RulesyncCommand.getRelativeFilePath r).
Proof.
  unfold CopilotCommand.fromRulesyncCommand.
  destruct (get_property _ "description") as [d | e]; [| done]. simpl.
  destruct (get_property _ "copilot") as [block | e]; [| done]. simpl.
  destruct (get_property_optional block "model") as [m | e]; [| done].
  intros Hnew. by apply new_returns_constructed in Hnew as ->.
Qed.




Example filename_examples :
  replace_at_end ".prompt.md" ".md" "foo.prompt.md" = "foo.md"
  ∧ replace_at_end ".md" ".prompt.md" "bar.md" = "bar.prompt.md"
  ∧ replace_at_end ".prompt.md" ".md" "README" = "README".
Proof. repeat split. Qed.

(** ** [isTargetedByRulesyncCommand] *)

Lemma array_includes_elem_of (x : string) (elements : list JsValue) :
  ToolCommand.array_includes x elements = true ↔ JString x ∈ elements.
Proof.
  unfold ToolCommand.array_includes.
  induction elements as [| e elements IH]; simpl.
  - split; [discriminate | by intros ?%elem_of_nil].
  - rewrite elem_of_cons, orb_true_iff, IH.
    destruct e; try (split; [intros [[=] | ?]; by right | intros [[=] | ?]; by right]).
    destruct (String.eqb_spec s x) as [-> | Hne].
    + split; intros _; by left.
    + split; (intros [? | ?]; [| by right]); [done | congruence].
Qed.

(** C5. For every canonical command, whose frontmatter is an object,
    [isTargetedByRulesyncCommand] answers true exactly when the frontmatter
    has no [targets] key, or holds [undefined] under it, or holds an array
    that contains the wildcard ["*"] or the identifier ["copilot"]; for any
    array of targets that contains neither it answers false. *)
Theorem C5_isTargetedByRulesyncCommand
    (r : RulesyncCommand.t) (props : gmap string JsValue) :
  RulesyncCommand.getFrontmatter r = JObject props →
  (CopilotCommand.isTargetedByRulesyncCommand r = true
   ↔ props !! "targets" = None
     ∨ props !! "targets" = Some JUndefined
     ∨ ∃ targets,
         props !! "targets" = Some (JArray targets)
         ∧ (JString "*" ∈ targets ∨ JString "copilot" ∈ targets))
  ∧ (∀ targets,
        props !! "targets" = Some (JArray targets) →
        JString "*" ∉ targets →
        JString "copilot" ∉ targets →
        CopilotCommand.isTargetedByRulesyncCommand r = false).
Proof.
  intros Hr.
  unfold CopilotCommand.isTargetedByRulesyncCommand,
    ToolCommand.isTargetedByRulesyncCommandDefault, ToolCommand.targets_of.
  rewrite Hr.
  destruct (props !! "targets") as [[| | b | x | s | targets | block] |];
    cbn [from_option id];
    try (split;
         [ split; [discriminate | intros [[=] | [[=] | (? & [=] & _)]]]
         | intros ? [=] ]).
  - split; [split; [intros _; right; by left | done] | intros ? [=]].
  - split.
    + rewrite orb_true_iff, !array_includes_elem_of. split.
      * intros Hin. right. right. by exists targets.
      * intros [[=] | [[=] | (targets' & [= <-] & Hin)]]. exact Hin.
    + intros targets' [= <-] Hstar Hcopilot.
      apply orb_false_iff. split; apply not_true_is_false;
        by rewrite array_includes_elem_of.
  - split; [split; [intros _; by left | done] | intros ? [=]].
Qed.

(** The cases of the test suite: [["cursor"]] is not targeted; an array
    with ["copilot"] among others, the wildcard, [targets: undefined] and a
    frontmatter without targets are. *)
Lemma C5_witness :
  CopilotCommand.isTargetedByRulesyncCommand
    (sample_rulesync (JObject {[ "targets" := JArray [JString "cursor"] ]})) = false
  ∧ CopilotCommand.isTargetedByRulesyncCommand
      (sample_rulesync
         (JObject {[ "targets" := JArray [JString "cursor"; JString "copilot";
                                          JString "cline"] ]})) = true
  ∧ CopilotCommand.isTargetedByRulesyncCommand
      (sample_rulesync (JObject {[ "targets" := JArray [JString "*"] ]})) = true
  ∧ CopilotCommand.isTargetedByRulesyncCommand
      (sample_rulesync (JObject {[ "targets" := JUndefined ]})) = true
  ∧ CopilotCommand.isTargetedByRulesyncCommand
      (sample_rulesync (JObject {[ "description" := JString "Test" ]})) = true.
Proof.
  split; [| split; [| split; [| split]]].
  - apply (proj2 (C5_isTargetedByRulesyncCommand
                    (sample_rulesync (JObject {[ "targets" := JArray [JString "cursor"] ]}))
                    {[ "targets" := JArray [JString "cursor"] ]} eq_refl)
             [JString "cursor"]).
    + reflexivity.
    + intros [Heq | Hin%elem_of_nil]%elem_of_cons; [discriminate | done].
    + intros [Heq | Hin%elem_of_nil]%elem_of_cons; [discriminate | done].
  - apply (proj1 (C5_isTargetedByRulesyncCommand
                    (sample_rulesync
                       (JObject {[ "targets" := JArray [JString "cursor"; JString "copilot";
                                                        JString "cline"] ]}))
                    _ eq_refl)).
    right. right. eexists. split; [reflexivity |].
    right. apply elem_of_cons. right. apply elem_of_cons. by left.
  - apply (proj1 (C5_isTargetedByRulesyncCommand
                    (sample_rulesync (JObject {[ "targets" := JArray [JString "*"] ]}))
                    _ eq_refl)).
    right. right. eexists. split; [reflexivity |].
    left. apply elem_of_cons. by left.
  - apply (proj1 (C5_isTargetedByRulesyncCommand
                    (sample_rulesync (JObject {[ "targets" := JUndefined ]}))
                    _ eq_refl)).
    right. left. reflexivity.
  - apply (proj1 (C5_isTargetedByRulesyncCommand
                    (sample_rulesync (JObject {[ "description" := JString "Test" ]}))
                    _ eq_refl)).
    left. reflexivity.
Defined.

Example isTargetedByRulesyncCommand_examples :
  CopilotCommand.isTargetedByRulesyncCommand
    (sample_rulesync (JObject {[ "targets" := JArray [JString "cursor"] ]})) = false
  ∧ CopilotCommand.isTargetedByRulesyncCommand
      (sample_rulesync
         (JObject {[ "targets" := JArray [JString "cursor"; JString "copilot";
                                          JString "cline"] ]})) = true
  ∧ CopilotCommand.isTargetedByRulesyncCommand
      (sample_rulesync (JObject {[ "targets" := JArray [JString "*"] ]})) = true
  ∧ CopilotCommand.isTargetedByRulesyncCommand
      (sample_rulesync (JObject {[ "targets" := JUndefined ]})) = true
  ∧ CopilotCommand.isTargetedByRulesyncCommand
      (sample_rulesync (JObject {[ "description" := JString "Test" ]})) = true.
Proof. repeat split. Qed.

(** ** [fromFile] *)

(** [fromFile] hands the constructor nothing but frontmatter that passed
    the schema. *)
Lemma fromFile_returns_valid `{Collaborators} baseDir relativeFilePath validate c :
  CopilotCommand.fromFile baseDir relativeFilePath validate = Return c →
  ∃ fileContent frontmatter content,
    readFileContent
      (join [default "." baseDir; relativeDirPath CopilotCommand.getSettablePaths;
             relativeFilePath]) = Return fileContent
    ∧ parseFrontmatter fileContent = Return (frontmatter, content)
    ∧ satisfies_copilot_schema frontmatter.
Proof.
  unfold CopilotCommand.fromFile.
  destruct (readFileContent _) as [fileContent | e];
    cbn [mbind Completion_bind]; [| intros [=]].
  destruct (parseFrontmatter fileContent) as [[frontmatter content] | e] eqn:Hparse;
    cbn [mbind Completion_bind]; [| intros [=]].
  intros Hnew. exists fileContent, frontmatter, content.
  split; [done |]. split; [done |].
  apply safeParse_success_iff.
  destruct (z.safeParse CopilotCommandFrontmatterSchema frontmatter);
    [eauto | discriminate].
Qed.

(** C10. [fromFile] checks the parsed frontmatter against the copilot
    schema whatever the validate flag says: when the file reads and parses
    to a frontmatter that fails the schema, [fromFile] rejects, for every
    value of the flag, with the error it raises itself, which names the
    path of the file that was read, before any document is constructed. *)
Theorem C10_fromFile_always_validates `{Collaborators}
    (baseDir : option string) (relativeFilePath fileContent : string)
    (frontmatter : JsValue) (content : string) :
  let filePath :=
    join [default "." baseDir; relativeDirPath CopilotCommand.getSettablePaths;
          relativeFilePath] in
  readFileContent filePath = Return fileContent →
  parseFrontmatter fileContent = Return (frontmatter, content) →
  ¬ satisfies_copilot_schema frontmatter →
  ∃ error,
    z.safeParse CopilotCommandFrontmatterSchema frontmatter = z.Failure error
    ∧ ∀ validate,
        CopilotCommand.fromFile baseDir relativeFilePath validate
        = Throw (Error (invalid_frontmatter_message filePath error)).
Proof.
  intros filePath Hread Hparse Hbad.
  apply safeParse_failure_iff in Hbad as [error Herror].
  exists error. split; [exact Herror |].
  intros validate. unfold CopilotCommand.fromFile.
  fold filePath. rewrite Hread. cbn [mbind Completion_bind].
  rewrite Hparse. cbn [mbind Completion_bind].
  by rewrite Herror.
Qed.

(** The file of the test suite without a mode: rejected with and without
    validation. *)
Lemma C10_witness :
  ∃ error,
    z.safeParse CopilotCommandFrontmatterSchema
      (JObject {[ "description" := JString "Test" ]}) = z.Failure error
    ∧ ∀ validate,
        CopilotCommand.fromFile (H := sample_collaborators)
          None "invalid-command.prompt.md" validate
        = Throw
            (Error
               (invalid_frontmatter_message (H := sample_collaborators)
                  "./.github/prompts/invalid-command.prompt.md" error)).
Proof.
  apply (C10_fromFile_always_validates (H := sample_collaborators)
           None "invalid-command.prompt.md" "description: Test"
           (JObject {[ "description" := JString "Test" ]}) "Body content").
  - reflexivity.
  - reflexivity.
  - intros (props & [= <-] & Hmode & _). discriminate.
Defined.

(** * Further properties *)

(** ** What a successful parse hands back *)

Lemma elem_of_schema_keys (k : string) :
  k ∈ schema_keys ↔ k = "mode" ∨ k = "description" ∨ k = "model".
Proof. unfold schema_keys. rewrite !elem_of_cons, elem_of_nil. tauto. Qed.

Lemma safeParse_copilot_data (props : gmap string JsValue) :
  satisfies_copilot_schema (JObject props) →
  ∃ data,
    z.safeParse CopilotCommandFrontmatterSchema (JObject props)
    = z.Success (JObject data)
    ∧ ∀ k, data !! k = if decide (k ∈ schema_keys) then props !! k else None.
Proof.
  intros (props' & [= <-] & Hmode & [d Hd] & Hm).
  unfold CopilotCommandFrontmatterSchema. simpl. rewrite Hmode, Hd.
  assert (Hlookup : ∀ (model_part : gmap string JsValue) k,
             (∀ j, model_part !! j
                   = if decide (j = "model") then props !! "model" else None) →
             (<["mode" := JString "agent"]>
                (<["description" := JString d]> model_part)) !! k
             = if decide (k ∈ schema_keys) then props !! k else None).
  { intros model_part k Hpart. rewrite !lookup_insert, Hpart.
    destruct (decide ("mode" = k)) as [<- | Hk1];
      [by rewrite decide_True by (apply elem_of_schema_keys; auto) |].
    destruct (decide ("description" = k)) as [<- | Hk2];
      [by rewrite decide_True by (apply elem_of_schema_keys; auto) |].
    destruct (decide (k = "model")) as [-> | Hk3];
      [by rewrite decide_True by (apply elem_of_schema_keys; auto) |].
    rewrite decide_False; [done |].
    rewrite elem_of_schema_keys. intros [-> | [-> | ->]]; done. }
  destruct Hm as [Hm | [Hm | [s Hm]]]; rewrite Hm; simpl;
    eexists; (split; [reflexivity |]); intros k; apply Hlookup; intros j.
  - rewrite lookup_empty, Hm. by case_decide.
  - rewrite lookup_insert, Hm. repeat case_decide; by subst.
  - rewrite lookup_insert, Hm. repeat case_decide; by subst.
Qed.

(** The parsed data of a valid frontmatter is valid in its turn. *)
Lemma safeParse_copilot_data_valid (props : gmap string JsValue) :
  satisfies_copilot_schema (JObject props) →
  ∃ data,
    z.safeParse CopilotCommandFrontmatterSchema (JObject props)
    = z.Success (JObject data)
    ∧ (∀ k, k ∈ schema_keys → data !! k = props !! k)
    ∧ (∀ k, k ∉ schema_keys → data !! k = None)
    ∧ satisfies_copilot_schema (JObject data).
Proof.
  intros Hvalid.
  destruct (safeParse_copilot_data props Hvalid) as (data & Hparse & Hdata).
  assert (Hin : ∀ k, k ∈ schema_keys → data !! k = props !! k).
  { intros k Hk. by rewrite Hdata, decide_True. }
  exists data. split; [exact Hparse |]. split; [exact Hin |]. split.
  - intros k Hk. by rewrite Hdata, decide_False.
  - destruct Hvalid as (props' & [= <-] & Hmode & Hd & Hm).
    exists data. split; [done |].
    rewrite !Hin by (apply elem_of_schema_keys; auto). done.
Qed.

(** X1. When a frontmatter satisfies the copilot schema, [safeParse] gives
    back an object that has the input's [mode], [description] and [model]
    entries as they are and no other key, and that object passes the schema
    again, unchanged. *)
Theorem safeParse_keeps_schema_keys_only (props : gmap string JsValue) :
  satisfies_copilot_schema (JObject props) →
  ∃ data,
    z.safeParse CopilotCommandFrontmatterSchema (JObject props)
    = z.Success (JObject data)
    ∧ (∀ k, k ∈ schema_keys → data !! k = props !! k)
    ∧ (∀ k, k ∉ schema_keys → data !! k = None)
    ∧ z.safeParse CopilotCommandFrontmatterSchema (JObject data)
      = z.Success (JObject data).
Proof.
  intros Hvalid.
  destruct (safeParse_copilot_data_valid props Hvalid)
    as (data & Hparse & Hin & Hout & Hvalid').
  exists data. split; [exact Hparse |]. split; [exact Hin |]. split; [exact Hout |].
  destruct (safeParse_copilot_data data Hvalid') as (data' & Hparse' & Hdata').
  rewrite Hparse'. do 2 f_equal. apply map_eq. intros k.
  rewrite Hdata'. case_decide as Hk; [done |]. by rewrite Hout.
Qed.

Lemma safeParse_keeps_schema_keys_only_witness :
  ∃ data,
    z.safeParse CopilotCommandFrontmatterSchema
      (JObject
         (<["author" := JString "me"]>
            (<["description" := JString "Review"]>
               (<["mode" := JString "agent"]> ∅))))
    = z.Success (JObject data)
    ∧ data !! "description" = Some (JString "Review")
    ∧ data !! "author" = None.
Proof.
  destruct (safeParse_keeps_schema_keys_only
              (<["author" := JString "me"]>
                 (<["description" := JString "Review"]>
                    (<["mode" := JString "agent"]> ∅))))
    as (data & Hparse & Hin & Hout & _).
  - concrete_schema.
  - exists data. split; [exact Hparse |]. split.
    + rewrite Hin by (apply elem_of_schema_keys; auto). reflexivity.
    + apply Hout. rewrite elem_of_schema_keys. intros [? | [? | ?]]; discriminate.
Defined.

Lemma safeParse_success_data_valid (frontmatter data : JsValue) :
  z.safeParse CopilotCommandFrontmatterSchema frontmatter = z.Success data →
  satisfies_copilot_schema data.
Proof.
  intros Hparse.
  assert (Hvalid : satisfies_copilot_schema frontmatter).
  { apply safeParse_success_iff. eauto. }
  pose proof Hvalid as (props & -> & _).
  destruct (safeParse_copilot_data_valid props Hvalid)
    as (data' & Hparse' & _ & _ & Hvalid').
  rewrite Hparse in Hparse'. by injection Hparse' as ->.
Qed.

(** ** More on [fromFile] *)

(** X2. When the file reads and parses to a frontmatter that satisfies the
    schema, [fromFile] returns, for every value of the validate flag, the
    same document: its frontmatter keeps the [mode], [description] and
    [model] entries of the file and drops every other key, its body is the
    trimmed content, its file name is the base name of the path asked for,
    its directory is the one [getSettablePaths] answers, its base directory
    defaults to ["."], and its file content is serialized again from the
    trimmed body and the kept frontmatter. *)
Theorem fromFile_valid_file `{Collaborators}
    (baseDir : option string) (relativeFilePath fileContent : string)
    (props : gmap string JsValue) (content : string) :
  let filePath :=
    join [default "." baseDir; relativeDirPath CopilotCommand.getSettablePaths;
          relativeFilePath] in
  readFileContent filePath = Return fileContent →
  parseFrontmatter fileContent = Return (JObject props, content) →
  satisfies_copilot_schema (JObject props) →
  ∃ data,
    (∀ k, k ∈ schema_keys → data !! k = props !! k)
    ∧ (∀ k, k ∉ schema_keys → data !! k = None)
    ∧ ∀ validate,
        CopilotCommand.fromFile baseDir relativeFilePath validate
        = Return
            {| CopilotCommand.super :=
                 {| AiFile.baseDir := Some (default "." baseDir);
                    AiFile.relativeDirPath :=
                      relativeDirPath CopilotCommand.getSettablePaths;
                    AiFile.relativeFilePath := basename relativeFilePath;
                    AiFile.fileContent :=
                      stringifyFrontmatter (trim content) (JObject data) |};
               CopilotCommand.frontmatter := JObject data;
               CopilotCommand.body := trim content |}.
Proof.
  intros filePath Hread Hparse Hvalid.
  destruct (safeParse_copilot_data_valid props Hvalid)
    as (data & Hdata & Hin & Hout & Hvalid').
  exists data. split; [exact Hin |]. split; [exact Hout |].
  intros validate. unfold CopilotCommand.fromFile.
  fold filePath. rewrite Hread. cbn [mbind Completion_bind].
  rewrite Hparse. cbn [mbind Completion_bind]. rewrite Hdata.
  rewrite new_valid; [reflexivity | exact Hvalid'].
Qed.

Lemma fromFile_valid_file_witness :
  ∃ c,
    (∀ validate,
        CopilotCommand.fromFile (H := sample_files)
          None "team/review.prompt.md" validate = Return c)
    ∧ CopilotCommand.getRelativeFilePath c = "review.prompt.md"
    ∧ CopilotCommand.getBody c = "Review the change."
    ∧ ∃ data,
        CopilotCommand.getFrontmatter c = JObject data
        ∧ data !! "description" = Some (JString "Review")
        ∧ data !! "author" = None.
Proof.
  destruct (fromFile_valid_file (H := sample_files)
              None "team/review.prompt.md" "review"
              (<["author" := JString "me"]>
                 (<["description" := JString "Review"]>
                    (<["mode" := JString "agent"]> ∅)))
              "Review the change.")
    as (data & Hin & Hout & Hfile).
  - reflexivity.
  - reflexivity.
  - concrete_schema.
  - eexists. split; [exact Hfile |]. split; [reflexivity |]. split; [reflexivity |].
    exists data. split; [reflexivity |]. split.
    + rewrite Hin by (apply elem_of_schema_keys; auto). reflexivity.
    + apply Hout. rewrite elem_of_schema_keys. intros [? | [? | ?]]; discriminate.
Defined.

(** X3. The validate flag has no effect on [fromFile]: with any two values
    of the flag it returns the same document or rejects with the same
    error. *)
Theorem fromFile_ignores_validate_flag `{Collaborators}
    (baseDir : option string) (relativeFilePath : string)
    (validate validate' : option bool) :
  CopilotCommand.fromFile baseDir relativeFilePath validate
  = CopilotCommand.fromFile baseDir relativeFilePath validate'.
Proof.
  unfold CopilotCommand.fromFile.
  destruct (readFileContent _) as [fileContent | e];
    cbn [mbind Completion_bind]; [| reflexivity].
  destruct (parseFrontmatter fileContent) as [[frontmatter content] | e];
    cbn [mbind Completion_bind]; [| reflexivity].
  destruct (z.safeParse CopilotCommandFrontmatterSchema frontmatter)
    as [data | error] eqn:Hparse; [| reflexivity].
  apply safeParse_success_data_valid in Hparse.
  by rewrite !new_valid.
Qed.

(** X4. [fromFile] hands on the failure of its collaborators as it is: when
    the file cannot be read it rejects with the reader's error, and when the
    text has no frontmatter to parse it rejects with the parser's error, in
    both cases for every value of the validate flag and without any schema
    message. *)
Theorem fromFile_hands_on_errors `{Collaborators}
    (baseDir : option string) (relativeFilePath : string) (e : Thrown) :
  let filePath :=
    join [default "." baseDir; relativeDirPath CopilotCommand.getSettablePaths;
          relativeFilePath] in
  (readFileContent filePath = Throw e
   ∨ ∃ fileContent,
       readFileContent filePath = Return fileContent
       ∧ parseFrontmatter fileContent = Throw e) →
  ∀ validate, CopilotCommand.fromFile baseDir relativeFilePath validate = Throw e.
Proof.
  intros filePath Hfail validate. unfold CopilotCommand.fromFile. fold filePath.
  destruct Hfail as [Hread | (fileContent & Hread & Hparse)];
    rewrite Hread; cbn [mbind Completion_bind]; [reflexivity |].
  rewrite Hparse. reflexivity.
Qed.

Lemma fromFile_hands_on_errors_witness :
  (∀ validate,
      CopilotCommand.fromFile (H := sample_files) None "missing.prompt.md" validate
      = Throw (Error "ENOENT"))
  ∧ (∀ validate,
        CopilotCommand.fromFile (H := sample_files) None "plain.prompt.md" validate
        = Throw (Error "no frontmatter")).
Proof.
  split.
  - apply (fromFile_hands_on_errors (H := sample_files) None "missing.prompt.md").
    left. reflexivity.
  - apply (fromFile_hands_on_errors (H := sample_files) None "plain.prompt.md").
    right. exists "plain". split; reflexivity.
Defined.

(** ** Validation at construction and afterwards *)

Lemma new_validated_frontmatter `{Collaborators} params c :
  CopilotCommand.new params = Return c →
  CopilotCommand.p_validate params = Some true →
  satisfies_copilot_schema (CopilotCommand.p_frontmatter params).
Proof.
  intros Hnew Hflag.
  destruct (satisfies_copilot_schema_dec (CopilotCommand.p_frontmatter params))
    as [Hok | Hbad]; [exact Hok |].
  apply safeParse_failure_iff in Hbad as [e He].
  rewrite (new_invalid params e Hflag He) in Hnew. discriminate.
Qed.

Lemma fromFile_frontmatter_valid `{Collaborators} baseDir relativeFilePath validate c :
  CopilotCommand.fromFile baseDir relativeFilePath validate = Return c →
  satisfies_copilot_schema (CopilotCommand.getFrontmatter c).
Proof.
  unfold CopilotCommand.fromFile.
  destruct (readFileContent _) as [fileContent | e];
    cbn [mbind Completion_bind]; [| intros [=]].
  destruct (parseFrontmatter fileContent) as [[frontmatter content] | e];
    cbn [mbind Completion_bind]; [| intros [=]].
  destruct (z.safeParse CopilotCommandFrontmatterSchema frontmatter)
    as [data | error] eqn:Hparse; [| intros [=]].
  intros Hnew. apply new_returns_constructed in Hnew as ->.
  by apply safeParse_success_data_valid in Hparse.
Qed.

Lemma fromRulesyncCommand_frontmatter_valid `{Collaborators} baseDir validate
    (r : RulesyncCommand.t) c :
  CopilotCommand.fromRulesyncCommand baseDir r validate = Return c →
  default true validate = true →
  satisfies_copilot_schema (CopilotCommand.getFrontmatter c).
Proof.
  unfold CopilotCommand.fromRulesyncCommand. intros Hfrom Hflag.
  destruct (get_property _ "description") as [d | e]; [| discriminate].
  cbn [mbind Completion_bind] in Hfrom.
  destruct (get_property _ "copilot") as [block | e]; [| discriminate].
  cbn [mbind Completion_bind] in Hfrom.
  destruct (get_property_optional block "model") as [m | e]; [| discriminate].
  cbn [mbind Completion_bind] in Hfrom. rewrite Hflag in Hfrom.
  pose proof (new_validated_frontmatter _ _ Hfrom eq_refl) as Hvalid.
  apply new_returns_constructed in Hfrom as ->. exact Hvalid.
Qed.

(** X5. A document that went through validation passes [validate()]
    afterwards: one built by the constructor with [validate = true], one
    [fromFile] returned (with any flag), and one [fromRulesyncCommand]
    returned with the flag true or left out, all get
    [{success: true, error: null}]. *)
Theorem validated_documents_pass_validate `{Collaborators} :
  (∀ params c,
      CopilotCommand.new params = Return c →
      CopilotCommand.p_validate params = Some true →
      CopilotCommand.validate c = {| success := true; error := None |})
  ∧ (∀ baseDir relativeFilePath validate c,
        CopilotCommand.fromFile baseDir relativeFilePath validate = Return c →
        CopilotCommand.validate c = {| success := true; error := None |})
  ∧ (∀ baseDir r validate c,
        CopilotCommand.fromRulesyncCommand baseDir r validate = Return c →
        default true validate = true →
        CopilotCommand.validate c = {| success := true; error := None |}).
Proof.
  split; [| split].
  - intros params c Hnew Hflag. apply validate_valid.
    pose proof (new_validated_frontmatter _ _ Hnew Hflag) as Hvalid.
    by apply new_returns_constructed in Hnew as ->.
  - intros baseDir relativeFilePath validate c Hfile. apply validate_valid.
    by apply fromFile_frontmatter_valid in Hfile.
  - intros baseDir r validate c Hfrom Hflag. apply validate_valid.
    by apply fromRulesyncCommand_frontmatter_valid in Hfrom.
Qed.

Lemma validated_documents_pass_validate_witness :
  (∃ c,
      CopilotCommand.new (H := sample_collaborators)
        (sample_params frontmatter_with_model (Some true)) = Return c
      ∧ CopilotCommand.validate (H := sample_collaborators) c
        = {| success := true; error := None |})
  ∧ (∃ c,
        CopilotCommand.fromFile (H := sample_files)
          None "team/review.prompt.md" (Some false) = Return c
        ∧ CopilotCommand.validate (H := sample_files) c
          = {| success := true; error := None |})
  ∧ (∃ c,
        CopilotCommand.fromRulesyncCommand (H := sample_collaborators)
          None (sample_rulesync canonical_with_model) None = Return c
        ∧ CopilotCommand.validate (H := sample_collaborators) c
          = {| success := true; error := None |}).
Proof.
  split; [| split].
  - eexists. split; [reflexivity |].
    exact (proj1 (validated_documents_pass_validate (H := sample_collaborators))
             (sample_params frontmatter_with_model (Some true)) _ eq_refl eq_refl).
  - eexists. split; [reflexivity |].
    exact (proj1 (proj2 (validated_documents_pass_validate (H := sample_files)))
             None "team/review.prompt.md" (Some false) _ eq_refl).
  - eexists. split; [reflexivity |].
    exact (proj2 (proj2 (validated_documents_pass_validate (H := sample_collaborators)))
             None (sample_rulesync canonical_with_model) None _ eq_refl eq_refl).
Defined.

(** X6. On a truthy frontmatter the two checks agree: [validate()] on the
    document built without validation reports a failure with some error
    exactly when the constructor with [validate = true], given the same
    parameters, throws that very error. *)
Theorem validate_reports_the_constructor_error `{Collaborators}
    (F : JsValue) (body : string) (baseDir : option string) (dir file : string)
    (thrown : Thrown) :
  let params validate :=
    {| CopilotCommand.p_frontmatter := F;
       CopilotCommand.p_body := body;
       CopilotCommand.p_baseDir := baseDir;
       CopilotCommand.p_relativeDirPath := dir;
       CopilotCommand.p_relativeFilePath := file;
       CopilotCommand.p_validate := validate |} in
  truthy F = true →
  CopilotCommand.new (params (Some true)) = Throw thrown
  ↔ ∃ c,
      CopilotCommand.new (params (Some false)) = Return c
      ∧ CopilotCommand.validate c = {| success := false; error := Some thrown |}.
Proof.
  intros params Htruthy.
  assert (Hplain : CopilotCommand.new (params (Some false))
                   = Return (constructed (params (Some false))))
    by (by apply new_without_validation).
  destruct (z.safeParse CopilotCommandFrontmatterSchema F) as [data | e] eqn:Hparse.
  - assert (Hvalid : satisfies_copilot_schema F)
      by (apply safeParse_success_iff; eauto).
    rewrite (new_valid (params (Some true))) by exact Hvalid.
    split; [discriminate |].
    intros (c & Hc & Hresult). rewrite Hplain in Hc. injection Hc as <-.
    rewrite validate_valid in Hresult by exact Hvalid. discriminate.
  - rewrite (new_invalid (params (Some true)) e eq_refl Hparse).
    assert (Hresult : CopilotCommand.validate (constructed (params (Some false)))
                      = {| success := false;
                           error :=
                             Some (Error (invalid_frontmatter_message
                                            (join [dir; file]) e)) |}).
    { unfold CopilotCommand.validate.
      cbn [constructed CopilotCommand.frontmatter CopilotCommand.p_frontmatter params].
      by rewrite Htruthy, Hparse. }
    split.
    + intros [= <-]. eexists. split; [exact Hplain | exact Hresult].
    + intros (c & Hc & Hresult'). rewrite Hplain in Hc. injection Hc as <-.
      rewrite Hresult in Hresult'. by injection Hresult' as <-.
Qed.

Lemma validate_reports_the_constructor_error_witness :
  CopilotCommand.new (H := sample_collaborators)
    (sample_params (JObject {[ "description" := JString "Test" ]}) (Some true))
  = Throw (Error "Invalid frontmatter in .github/prompts/foo.prompt.md: invalid_value")
  ↔ ∃ c,
      CopilotCommand.new (H := sample_collaborators)
        (sample_params (JObject {[ "description" := JString "Test" ]}) (Some false))
      = Return c
      ∧ CopilotCommand.validate (H := sample_collaborators) c
        = {| success := false;
             error :=
               Some (Error
                       "Invalid frontmatter in .github/prompts/foo.prompt.md: invalid_value") |}.
Proof.
  apply (validate_reports_the_constructor_error (H := sample_collaborators)
           (JObject {[ "description" := JString "Test" ]}) "Hi" (Some ".")
           ".github/prompts" "foo.prompt.md").
  reflexivity.
Defined.

(** ** More on [fromRulesyncCommand] *)

Lemma read_canonical_model_any (rprops : gmap string JsValue) :
  get_property_optional (default JUndefined (rprops !! "copilot")) "model"
  = Return (canonical_model_read rprops).
Proof.
  unfold canonical_model_read.
  by destruct (rprops !! "copilot") as [[] |].
Qed.

(** On an object frontmatter the conversion comes down to the constructor. *)
Lemma fromRulesyncCommand_object `{Collaborators} baseDir validate
    (r : RulesyncCommand.t) rprops :
  RulesyncCommand.getFrontmatter r = JObject rprops →
  CopilotCommand.fromRulesyncCommand baseDir r validate
  = CopilotCommand.new
      {| CopilotCommand.p_frontmatter := converted_frontmatter rprops;
         CopilotCommand.p_body := RulesyncCommand.getBody r;
         CopilotCommand.p_baseDir := Some (default "." baseDir);
         CopilotCommand.p_relativeDirPath :=
           relativeDirPath CopilotCommand.getSettablePaths;
         CopilotCommand.p_relativeFilePath :=
           replace_at_end ".md" ".prompt.md" (RulesyncCommand.getRelativeFilePath r);
         CopilotCommand.p_validate := Some (default true validate) |}.
Proof.
  intros Hr. unfold CopilotCommand.fromRulesyncCommand. rewrite Hr.
  cbn [get_property mbind Completion_bind].
  rewrite read_canonical_model_any. reflexivity.
Qed.

Lemma converted_frontmatter_valid (rprops : gmap string JsValue) :
  satisfies_copilot_schema (converted_frontmatter rprops)
  ↔ (∃ d, rprops !! "description" = Some (JString d))
    ∧ (canonical_model_read rprops = JUndefined
       ∨ ∃ m, canonical_model_read rprops = JString m).
Proof.
  unfold converted_frontmatter. split.
  - intros (props & [= <-] & _ & [d Hd] & Hm).
    rewrite lookup_insert_ne, lookup_insert_eq in Hd by done.
    rewrite lookup_insert_eq in Hm. split.
    + exists d. apply lookup_default_string. by injection Hd.
    + destruct Hm as [[=] | [[= ->] | [m [= ->]]]]; eauto.
  - intros [[d Hd] Hm]. eexists. split; [reflexivity |].
    split; [reflexivity |]. split.
    + exists d. rewrite lookup_insert_ne, lookup_insert_eq by done. by rewrite Hd.
    + rewrite lookup_insert_eq. destruct Hm as [-> | [m ->]].
      * right; left. reflexivity.
      * right; right. by exists m.
Qed.

(** X7. For a canonical command whose frontmatter is an object,
    [fromRulesyncCommand] writes the frontmatter
    [{mode: "agent", description, model: copilot?.model}] whatever these
    fields hold. With [validate = false] it always returns the document,
    also when the description is missing. With the flag true or left out it
    returns the document when the description is a string and the model is
    a string or undefined, and otherwise throws an error whose message
    includes the path under [getSettablePaths] with the rewritten name. *)
Theorem fromRulesyncCommand_outcome `{Collaborators}
    (baseDir : option string) (validate : option bool)
    (r : RulesyncCommand.t) (rprops : gmap string JsValue) :
  RulesyncCommand.getFrontmatter r = JObject rprops →
  let well_typed :=
    (∃ d, rprops !! "description" = Some (JString d))
    ∧ (canonical_model_read rprops = JUndefined
       ∨ ∃ m, canonical_model_read rprops = JString m) in
  let returns :=
    ∃ c,
      CopilotCommand.fromRulesyncCommand baseDir r validate = Return c
      ∧ CopilotCommand.getFrontmatter c = converted_frontmatter rprops
      ∧ CopilotCommand.getBody c = RulesyncCommand.getBody r in
  (default true validate = false → returns)
  ∧ (well_typed → returns)
  ∧ (default true validate = true → ¬ well_typed →
     ∃ message,
       CopilotCommand.fromRulesyncCommand baseDir r validate = Throw (Error message)
       ∧ includes
           (join [relativeDirPath CopilotCommand.getSettablePaths;
                  replace_at_end ".md" ".prompt.md"
                    (RulesyncCommand.getRelativeFilePath r)])
           message).
Proof.
  intros Hr well_typed returns. unfold returns.
  rewrite (fromRulesyncCommand_object baseDir validate r rprops Hr).
  split; [| split].
  - intros Hflag. rewrite new_without_validation by (by rewrite Hflag).
    eexists. split; [reflexivity |]. split; reflexivity.
  - intros Htyped. rewrite new_valid by (by apply converted_frontmatter_valid).
    eexists. split; [reflexivity |]. split; reflexivity.
  - intros Hflag Hbad.
    assert (Hbad' : ¬ satisfies_copilot_schema (converted_frontmatter rprops))
      by (intros Hs; apply Hbad; by apply converted_frontmatter_valid).
    apply safeParse_failure_iff in Hbad' as [e He].
    rewrite Hflag. erewrite new_invalid by (reflexivity || exact He).
    eexists. split; [reflexivity |]. apply includes_invalid_frontmatter_message.
Qed.

Lemma fromRulesyncCommand_outcome_witness :
  (∃ c,
      CopilotCommand.fromRulesyncCommand (H := sample_collaborators)
        None (sample_rulesync canonical_ill_typed) (Some false) = Return c
      ∧ CopilotCommand.getFrontmatter c
        = JObject
            (<["model" := JBoolean true]>
               (<["description" := JUndefined]> (<["mode" := JString "agent"]> ∅)))
      ∧ CopilotCommand.getBody c = "Body")
  ∧ (∃ message,
        CopilotCommand.fromRulesyncCommand (H := sample_collaborators)
          None (sample_rulesync canonical_ill_typed) None = Throw (Error message)
        ∧ includes ".github/prompts/bar.prompt.md" message).
Proof.
  pose proof (fromRulesyncCommand_outcome (H := sample_collaborators)
                None (Some false) (sample_rulesync canonical_ill_typed) _ eq_refl)
    as (Hplain & _ & _).
  pose proof (fromRulesyncCommand_outcome (H := sample_collaborators)
                None None (sample_rulesync canonical_ill_typed) _ eq_refl)
    as (_ & _ & Hchecked).
  split.
  - exact (Hplain eq_refl).
  - apply (Hchecked eq_refl). intros [[d Hd] _]. discriminate.
Defined.

(** ** What the conversions read *)

(** X8. The conversions read properties of the frontmatter without a guard:
    on a command whose stored frontmatter is [undefined] or [null],
    [toRulesyncCommand] throws a [TypeError], and so does
    [fromRulesyncCommand] on such a canonical command, for every base
    directory and validate flag; [validate()] on the same command reports a
    success. *)
Theorem conversions_throw_on_missing_frontmatter `{Collaborators}
    (c : CopilotCommand.t) (r : RulesyncCommand.t)
    (baseDir : option string) (validate : option bool) :
  (CopilotCommand.getFrontmatter c = JUndefined
   ∨ CopilotCommand.getFrontmatter c = JNull →
   CopilotCommand.toRulesyncCommand c = Throw TypeError
   ∧ CopilotCommand.validate c = {| success := true; error := None |})
  ∧ (RulesyncCommand.getFrontmatter r = JUndefined
     ∨ RulesyncCommand.getFrontmatter r = JNull →
     CopilotCommand.fromRulesyncCommand baseDir r validate = Throw TypeError).
Proof.
  split.
  - intros Hc. split.
    + unfold CopilotCommand.toRulesyncCommand, CopilotCommand.rulesyncFrontmatter_of.
      unfold CopilotCommand.getFrontmatter in Hc. by destruct Hc as [-> | ->].
    + apply validate_falsy. by destruct Hc as [-> | ->].
  - intros Hr. unfold CopilotCommand.fromRulesyncCommand.
    by destruct Hr as [-> | ->].
Qed.

Lemma conversions_throw_on_missing_frontmatter_witness :
  (CopilotCommand.toRulesyncCommand (H := sample_collaborators)
     (sample_command JUndefined) = Throw TypeError
   ∧ CopilotCommand.validate (H := sample_collaborators) (sample_command JUndefined)
     = {| success := true; error := None |})
  ∧ CopilotCommand.fromRulesyncCommand (H := sample_collaborators)
      None (sample_rulesync JNull) (Some false) = Throw TypeError.
Proof.
  pose proof (conversions_throw_on_missing_frontmatter (H := sample_collaborators)
                (sample_command JUndefined) (sample_rulesync JNull) None (Some false))
    as [Hto Hfrom].
  split.
  - apply Hto. left. reflexivity.
  - apply Hfrom. right. reflexivity.
Defined.

(** X9. [toRulesyncCommand] reads nothing of the frontmatter but
    [description] and [model]: setting or removing any other key, [mode]
    included, leaves its outcome as it is. *)
Theorem toRulesyncCommand_reads_description_and_model `{Collaborators}
    (c : CopilotCommand.t) (cprops : gmap string JsValue)
    (key : string) (value : JsValue) :
  CopilotCommand.getFrontmatter c = JObject cprops →
  key ≠ "description" → key ≠ "model" →
  CopilotCommand.toRulesyncCommand (with_frontmatter c (JObject (<[key := value]> cprops)))
  = CopilotCommand.toRulesyncCommand c
  ∧ CopilotCommand.toRulesyncCommand (with_frontmatter c (JObject (delete key cprops)))
    = CopilotCommand.toRulesyncCommand c.
Proof.
  intros Hc Hd Hm.
  unfold CopilotCommand.toRulesyncCommand, CopilotCommand.rulesyncFrontmatter_of.
  unfold CopilotCommand.getFrontmatter in Hc. rewrite Hc.
  cbn [with_frontmatter CopilotCommand.frontmatter get_property].
  by rewrite !lookup_insert_ne, !lookup_delete_ne by done.
Qed.

Lemma toRulesyncCommand_reads_description_and_model_witness :
  CopilotCommand.toRulesyncCommand (H := sample_collaborators)
    (sample_command
       (JObject
          (<["mode" := JString "ask"]>
             (<["description" := JString "Test"]> (<["mode" := JString "agent"]> ∅)))))
  = CopilotCommand.toRulesyncCommand (H := sample_collaborators)
      (sample_command frontmatter_without_model).
Proof.
  exact (proj1 (toRulesyncCommand_reads_description_and_model
                  (H := sample_collaborators)
                  (sample_command frontmatter_without_model)
                  (<["description" := JString "Test"]> (<["mode" := JString "agent"]> ∅))
                  "mode" (JString "ask") eq_refl ltac:(done) ltac:(done))).
Defined.

(** X10. [fromRulesyncCommand] reads nothing of the canonical frontmatter
    but [description] and [copilot]: setting or removing any other key,
    [targets] included, leaves its outcome as it is. In particular it
    converts a command whatever its targets are. *)
Theorem fromRulesyncCommand_reads_description_and_copilot `{Collaborators}
    (baseDir : option string) (validate : option bool)
    (r : RulesyncCommand.t) (rprops : gmap string JsValue)
    (key : string) (value : JsValue) :
  RulesyncCommand.getFrontmatter r = JObject rprops →
  key ≠ "description" → key ≠ "copilot" →
  CopilotCommand.fromRulesyncCommand baseDir
    (with_canonical_frontmatter r (JObject (<[key := value]> rprops))) validate
  = CopilotCommand.fromRulesyncCommand baseDir r validate
  ∧ CopilotCommand.fromRulesyncCommand baseDir
      (with_canonical_frontmatter r (JObject (delete key rprops))) validate
    = CopilotCommand.fromRulesyncCommand baseDir r validate.
Proof.
  intros Hr Hd Hc.
  rewrite (fromRulesyncCommand_object baseDir validate r rprops Hr).
  rewrite (fromRulesyncCommand_object baseDir validate
             (with_canonical_frontmatter r (JObject (<[key := value]> rprops)))
             (<[key := value]> rprops) eq_refl).
  rewrite (fromRulesyncCommand_object baseDir validate
             (with_canonical_frontmatter r (JObject (delete key rprops)))
             (delete key rprops) eq_refl).
  unfold converted_frontmatter, canonical_model_read.
  by rewrite !lookup_insert_ne, !lookup_delete_ne by done.
Qed.

Lemma fromRulesyncCommand_reads_description_and_copilot_witness :
  CopilotCommand.fromRulesyncCommand (H := sample_collaborators) None
    (sample_rulesync
       (JObject
          (<["targets" := JArray [JString "cursor"]]>
             (<["description" := JString "Test"]>
                (<["targets" := JArray [JString "copilot"]]> ∅))))) None
  = CopilotCommand.fromRulesyncCommand (H := sample_collaborators) None
      (sample_rulesync canonical_without_model) None.
Proof.
  exact (proj1 (fromRulesyncCommand_reads_description_and_copilot
                  (H := sample_collaborators) None None
                  (sample_rulesync canonical_without_model)
                  (<["description" := JString "Test"]>
                     (<["targets" := JArray [JString "copilot"]]> ∅))
                  "targets" (JArray [JString "cursor"])
                  eq_refl ltac:(done) ltac:(done))).
Defined.

(** ** File names, there and back *)

(** What [replace_at_end] does, by whether the name ends in the suffix. *)
Lemma replace_at_end_cases (suffix replacement name : string) :
  (∃ stem,
      name = stem +:+ suffix
      ∧ replace_at_end suffix replacement name = stem +:+ replacement)
  ∨ (¬ ends_with suffix name ∧ replace_at_end suffix replacement name = name).
Proof.
  induction name as [| c name IH]; rewrite replace_at_end_unfold.
  - destruct (String.eqb_spec "" suffix) as [<- | Hne].
    + left. by exists "".
    + right. split; [| done]. intros [stem Hstem].
      destruct stem; [| discriminate]. by destruct Hne.
  - destruct (String.eqb_spec (String c name) suffix) as [<- | Hne].
    + left. by exists "".
    + destruct IH as [(stem & -> & ->) | [Hno ->]].
      * left. by exists (String c stem).
      * right. split; [| done]. intros [stem Hstem].
        destruct stem as [| c' stem]; simpl in Hstem; [by destruct Hne |].
        injection Hstem as _ ->. apply Hno. by exists stem.
Qed.

Lemma ends_with_dec (suffix name : string) :
  ends_with suffix name ∨ ¬ ends_with suffix name.
Proof.
  destruct (replace_at_end_cases suffix "" name) as [(stem & -> & _) | [Hno _]];
    [left; by exists stem | by right].
Qed.

Lemma string_app_assoc (s1 s2 s3 : string) :
  (s1 +:+ s2) +:+ s3 = s1 +:+ (s2 +:+ s3).
Proof.
  induction s1 as [| c s1 IH]; [done |].
  change (String c ((s1 +:+ s2) +:+ s3) = String c (s1 +:+ (s2 +:+ s3))).
  by rewrite IH.
Qed.

Lemma ends_with_prompt_md_md (name : string) :
  ends_with ".prompt.md" name → ends_with ".md" name.
Proof.
  intros [stem ->]. exists (stem +:+ ".prompt"). by rewrite string_app_assoc.
Qed.

(** The canonical name always comes back. *)
Lemma canonical_name_round_trip (name : string) :
  replace_at_end ".prompt.md" ".md" (replace_at_end ".md" ".prompt.md" name) = name.
Proof.
  destruct (replace_at_end_cases ".md" ".prompt.md" name)
    as [(stem & -> & ->) | [Hno ->]].
  - apply replace_at_end_suffix.
  - apply replace_at_end_other. intros stem ->.
    apply Hno, ends_with_prompt_md_md. by exists stem.
Qed.

(** The copilot name comes back unless it ends in [.md] without ending in
    [.prompt.md]. *)
Lemma copilot_name_round_trip (name : string) :
  replace_at_end ".md" ".prompt.md" (replace_at_end ".prompt.md" ".md" name) = name
  ↔ ends_with ".prompt.md" name ∨ ¬ ends_with ".md" name.
Proof.
  destruct (replace_at_end_cases ".prompt.md" ".md" name)
    as [(stem & -> & ->) | [Hno ->]].
  - rewrite replace_at_end_suffix. split; [| done]. intros _. left. by exists stem.
  - destruct (replace_at_end_cases ".md" ".prompt.md" name)
      as [(stem & -> & ->) | [Hno' ->]].
    + split.
      * intros Heq. apply (f_equal String.length) in Heq.
        rewrite !string_length_app in Heq. simpl in Heq. lia.
      * intros [Hyes | Hnot]; [by destruct Hno |].
        destruct Hnot. by exists stem.
    + split; [| done]. intros _. by right.
Qed.

(** X11. Converting a canonical command to copilot and back restores its
    file name, whatever the name is: whenever both conversions return, the
    canonical document that comes back is named as the one that went in. *)
Theorem canonical_file_name_is_restored `{Collaborators}
    (baseDir : option string) (validate : option bool)
    (r : RulesyncCommand.t) (c : CopilotCommand.t) (r' : RulesyncCommand.t) :
  CopilotCommand.fromRulesyncCommand baseDir r validate = Return c →
  CopilotCommand.toRulesyncCommand c = Return r' →
  RulesyncCommand.getRelativeFilePath r' = RulesyncCommand.getRelativeFilePath r.
Proof.
  intros Hfrom Hto.
  rewrite (toRulesyncCommand_relativeFilePath c r' Hto).
  rewrite (fromRulesyncCommand_relativeFilePath baseDir validate r c Hfrom).
  apply canonical_name_round_trip.
Qed.

Lemma canonical_file_name_is_restored_witness :
  ∃ c r',
    CopilotCommand.fromRulesyncCommand (H := sample_collaborators)
      None (sample_rulesync canonical_with_model) None = Return c
    ∧ CopilotCommand.getRelativeFilePath c = "bar.prompt.md"
    ∧ CopilotCommand.toRulesyncCommand (H := sample_collaborators) c = Return r'
    ∧ RulesyncCommand.getRelativeFilePath r' = "bar.md".
Proof.
  eexists. eexists. split; [reflexivity |]. split; [reflexivity |].
  split; [reflexivity |].
  exact (canonical_file_name_is_restored (H := sample_collaborators)
           None None (sample_rulesync canonical_with_model) _ _ eq_refl eq_refl).
Defined.

(** X12. Converting a copilot command to canonical and back restores its
    file name exactly when the name ends in [.prompt.md] or does not end in
    [.md]: a command stored as [notes.md] comes back as [notes.prompt.md]. *)
Theorem copilot_file_name_is_restored_iff `{Collaborators}
    (baseDir : option string) (validate : option bool)
    (c : CopilotCommand.t) (r : RulesyncCommand.t) (c' : CopilotCommand.t) :
  CopilotCommand.toRulesyncCommand c = Return r →
  CopilotCommand.fromRulesyncCommand baseDir r validate = Return c' →
  CopilotCommand.getRelativeFilePath c' = CopilotCommand.getRelativeFilePath c
  ↔ ends_with ".prompt.md" (CopilotCommand.getRelativeFilePath c)
    ∨ ¬ ends_with ".md" (CopilotCommand.getRelativeFilePath c).
Proof.
  intros Hto Hfrom.
  rewrite (fromRulesyncCommand_relativeFilePath baseDir validate r c' Hfrom).
  rewrite (toRulesyncCommand_relativeFilePath c r Hto).
  apply copilot_name_round_trip.
Qed.

Lemma copilot_file_name_is_restored_iff_witness :
  ∃ r c',
    CopilotCommand.toRulesyncCommand (H := sample_collaborators)
      (sample_command_named "notes.md") = Return r
    ∧ CopilotCommand.fromRulesyncCommand (H := sample_collaborators)
        None r None = Return c'
    ∧ CopilotCommand.getRelativeFilePath c' = "notes.prompt.md"
    ∧ (CopilotCommand.getRelativeFilePath c' = "notes.md"
       ↔ ends_with ".prompt.md" "notes.md" ∨ ¬ ends_with ".md" "notes.md").
Proof.
  eexists. eexists. split; [reflexivity |]. split; [reflexivity |].
  split; [reflexivity |].
  exact (copilot_file_name_is_restored_iff (H := sample_collaborators)
           None None (sample_command_named "notes.md") _ _ eq_refl eq_refl).
Defined.

(** ** From canonical to copilot and back *)

(** X13. For a canonical command whose frontmatter is an object with a
    string description and a model that is a string or undefined, converting
    to copilot and back succeeds and gives a canonical document with the
    same body and file name, whose frontmatter is rebuilt from the
    description and the model alone: its targets are [["*"]] whatever the
    targets were, an empty model is gone, and no other key is left. *)
Theorem canonical_round_trip `{Collaborators}
    (baseDir : option string) (validate : option bool)
    (r : RulesyncCommand.t) (rprops : gmap string JsValue) (d : string) :
  RulesyncCommand.getFrontmatter r = JObject rprops →
  rprops !! "description" = Some (JString d) →
  (canonical_model_read rprops = JUndefined
   ∨ ∃ m, canonical_model_read rprops = JString m) →
  ∃ c r',
    CopilotCommand.fromRulesyncCommand baseDir r validate = Return c
    ∧ CopilotCommand.toRulesyncCommand c = Return r'
    ∧ RulesyncCommand.getBody r' = RulesyncCommand.getBody r
    ∧ RulesyncCommand.getRelativeFilePath r' = RulesyncCommand.getRelativeFilePath r
    ∧ RulesyncCommand.getFrontmatter r'
      = canonical_frontmatter d (carried_model (Some (canonical_model_read rprops)))
    ∧ ToolCommand.targets_of r' = JArray [JString "*"].
Proof.
  intros Hr Hd Hm.
  pose proof (fromRulesyncCommand_returns baseDir validate r rprops d
                (canonical_model_read rprops) Hr Hd
                (read_canonical_model_any rprops) Hm) as Hfrom.
  match type of Hfrom with _ = Return ?x => set (c := x) in * end.
  assert (Hto : CopilotCommand.toRulesyncCommand c
                = Return
                    {| RulesyncCommand.super :=
                         {| AiFile.baseDir := Some ".";
                            AiFile.relativeDirPath := rulesyncCommandsDir;
                            AiFile.relativeFilePath :=
                              replace_at_end ".prompt.md" ".md"
                                (CopilotCommand.getRelativeFilePath c);
                            AiFile.fileContent := CopilotCommand.getFileContent c |};
                       RulesyncCommand.frontmatter :=
                         canonical_frontmatter d
                           (carried_model (Some (canonical_model_read rprops)));
                       RulesyncCommand.body := CopilotCommand.getBody c |}).
  { pose proof (toRulesyncCommand_valid c
                  (<["model" := canonical_model_read rprops]>
                     (<["description" := JString d]>
                        (<["mode" := JString "agent"]> ∅))) d eq_refl) as Hvalid.
    rewrite lookup_insert_eq in Hvalid. apply Hvalid.
    - by rewrite lookup_insert_ne, lookup_insert_eq.
    - destruct Hm as [-> | [m ->]]; [right; left | right; right]; eauto. }
  match type of Hto with _ = Return ?x => set (r' := x) in * end.
  exists c, r'. split; [exact Hfrom |]. split; [exact Hto |].
  split; [reflexivity |]. split; [| split].
  - rewrite (toRulesyncCommand_relativeFilePath c r' Hto).
    rewrite (fromRulesyncCommand_relativeFilePath baseDir validate r c Hfrom).
    apply canonical_name_round_trip.
  - reflexivity.
  - unfold ToolCommand.targets_of, RulesyncCommand.getFrontmatter.
    cbn [r' RulesyncCommand.frontmatter]. unfold canonical_frontmatter.
    destruct (carried_model _); reflexivity.
Qed.

Lemma canonical_round_trip_witness :
  ∃ c r',
    CopilotCommand.fromRulesyncCommand (H := sample_collaborators)
      None (sample_rulesync canonical_with_model) None = Return c
    ∧ CopilotCommand.toRulesyncCommand (H := sample_collaborators) c = Return r'
    ∧ RulesyncCommand.getRelativeFilePath r' = "bar.md"
    ∧ ToolCommand.targets_of (sample_rulesync canonical_with_model)
      = JArray [JString "copilot"]
    ∧ ToolCommand.targets_of r' = JArray [JString "*"].
Proof.
  destruct (canonical_round_trip (H := sample_collaborators) None None
              (sample_rulesync canonical_with_model)
              (<["copilot" := JObject {[ "model" := JString "claude-haiku-4.5" ]}]>
                 (<["description" := JString "Test"]>
                    (<["targets" := JArray [JString "copilot"]]> ∅)))
              "Test")
    as (c & r' & Hfrom & Hto & _ & Hname & _ & Htargets).
  - reflexivity.
  - reflexivity.
  - right. eexists. reflexivity.
  - exists c, r'. repeat split; assumption.
Defined.

(** ** What the conversions leave behind *)

(** X14. The conversions take nothing from where the source document
    lives. [toRulesyncCommand] gives the same outcome for two commands with
    the same frontmatter, body, file name and file content, whatever their
    base directories and directories are; [fromRulesyncCommand] gives the
    same outcome for two canonical commands with the same frontmatter, body
    and file name, whatever their base directories, directories and file
    contents are. *)
Theorem conversions_ignore_the_source_location `{Collaborators}
    (baseDir : option string) (validate : option bool) :
  (∀ c c',
      CopilotCommand.getFrontmatter c = CopilotCommand.getFrontmatter c' →
      CopilotCommand.getBody c = CopilotCommand.getBody c' →
      CopilotCommand.getRelativeFilePath c = CopilotCommand.getRelativeFilePath c' →
      CopilotCommand.getFileContent c = CopilotCommand.getFileContent c' →
      CopilotCommand.toRulesyncCommand c = CopilotCommand.toRulesyncCommand c')
  ∧ (∀ r r',
        RulesyncCommand.getFrontmatter r = RulesyncCommand.getFrontmatter r' →
        RulesyncCommand.getBody r = RulesyncCommand.getBody r' →
        RulesyncCommand.getRelativeFilePath r = RulesyncCommand.getRelativeFilePath r' →
        CopilotCommand.fromRulesyncCommand baseDir r validate
        = CopilotCommand.fromRulesyncCommand baseDir r' validate).
Proof.
  split.
  - intros c c' Hfm Hbody Hname Hcontent.
    unfold CopilotCommand.toRulesyncCommand, CopilotCommand.rulesyncFrontmatter_of.
    unfold CopilotCommand.getFrontmatter, CopilotCommand.getBody in *.
    by rewrite Hfm, Hbody, Hname, Hcontent.
  - intros r r' Hfm Hbody Hname.
    unfold CopilotCommand.fromRulesyncCommand.
    by rewrite Hfm, Hbody, Hname.
Qed.

Lemma conversions_ignore_the_source_location_witness :
  CopilotCommand.fromRulesyncCommand (H := sample_collaborators) None
    {| RulesyncCommand.super :=
         {| AiFile.baseDir := Some "/elsewhere";
            AiFile.relativeDirPath := "other/dir";
            AiFile.relativeFilePath := "bar.md";
            AiFile.fileContent := "stale text" |};
       RulesyncCommand.frontmatter := canonical_with_model;
       RulesyncCommand.body := "Body" |} None
  = CopilotCommand.fromRulesyncCommand (H := sample_collaborators) None
      (sample_rulesync canonical_with_model) None.
Proof.
  exact (proj2 (conversions_ignore_the_source_location (H := sample_collaborators)
                  None None) _ (sample_rulesync canonical_with_model)
           eq_refl eq_refl eq_refl).
Defined.

(** X15. Every document [fromFile] returns converts: [toRulesyncCommand]
    on it returns a canonical document with the same body and with targets
    [["*"]], whatever the validate flag given to [fromFile] was. *)
Theorem documents_read_from_files_convert `{Collaborators}
    (baseDir : option string) (relativeFilePath : string)
    (validate : option bool) (c : CopilotCommand.t) :
  CopilotCommand.fromFile baseDir relativeFilePath validate = Return c →
  ∃ r,
    CopilotCommand.toRulesyncCommand c = Return r
    ∧ RulesyncCommand.getBody r = CopilotCommand.getBody c
    ∧ ToolCommand.targets_of r = JArray [JString "*"].
Proof.
  intros Hfile. apply fromFile_frontmatter_valid in Hfile.
  pose proof Hfile as (cprops & Hc & _ & [d Hd] & Hm).
  rewrite (toRulesyncCommand_valid c cprops d Hc Hd Hm).
  eexists. split; [reflexivity |]. split; [reflexivity |].
  unfold ToolCommand.targets_of, RulesyncCommand.getFrontmatter.
  cbn [RulesyncCommand.frontmatter]. unfold canonical_frontmatter.
  destruct (carried_model _); reflexivity.
Qed.

Lemma documents_read_from_files_convert_witness :
  ∃ c r,
    CopilotCommand.fromFile (H := sample_files)
      None "team/review.prompt.md" (Some false) = Return c
    ∧ CopilotCommand.toRulesyncCommand (H := sample_files) c = Return r
    ∧ RulesyncCommand.getBody r = "Review the change."
    ∧ ToolCommand.targets_of r = JArray [JString "*"].
Proof.
  destruct (documents_read_from_files_convert (H := sample_files)
              None "team/review.prompt.md" (Some false) _ eq_refl)
    as (r & Hto & Hbody & Htargets).
  eexists. exists r. split; [reflexivity |].
  split; [exact Hto |]. split; [exact Hbody | exact Htargets].
Defined.
